(** * Provisioning orchestrator of vsc-remote-mcp: a shallow embedding

    Embedded source: [src/tools/deploy_vscode_instance.js].

    The JavaScript module is a sequence of asynchronous steps over the
    container engine CLI, the file system, TCP listeners, a random source
    and one module-level variable ([detectedRuntime]).  It is embedded as
    a state-and-exception monad over a [World]; every answer of the
    outside world is taken from an [Env] of oracles which see the whole
    history of the process, so that a theorem quantified over [Env] speaks
    about every behaviour of the environment. *)

From Stdlib Require Import ZArith String Ascii List Bool Lia DecimalString.
From stdpp Require Import base gmap strings.
Import ListNotations.

Local Open Scope string_scope.
Local Open Scope Z_scope.
Local Open Scope list_scope.

(* ===================================================================== *)
(** ** JavaScript strings *)
(* ===================================================================== *)

Module Js.

(** Truthiness of a string: only [''] is falsy. *)
Definition truthy (s : string) : bool :=
  match s with EmptyString => false | String _ _ => true end.

(** [a || b] on a possibly undefined string. *)
Definition or_default (o : option string) (d : string) : string :=
  match o with
  | Some s => if truthy s then s else d
  | None => d
  end.

(** [hay.includes(needle)] *)
Fixpoint includes (needle hay : string) : bool :=
  String.prefix needle hay ||
  match hay with
  | EmptyString => false
  | String _ rest => includes needle rest
  end.

(** Number of positions of [s] at which [pat] starts. *)
Fixpoint occurrences (pat s : string) : nat :=
  match s with
  | EmptyString => 0%nat
  | String _ rest =>
      ((if String.prefix pat s then 1 else 0) + occurrences pat rest)%nat
  end.

(** Does the character [c] occur in [s]? *)
Fixpoint has_char (c : ascii) (s : string) : bool :=
  match s with
  | EmptyString => false
  | String d rest => Ascii.eqb c d || has_char c rest
  end.

(** [s.split(sep)] for a one-character separator. *)
Fixpoint split (sep : ascii) (s : string) : list string :=
  match s with
  | EmptyString => [EmptyString]
  | String c rest =>
      if Ascii.eqb c sep then EmptyString :: split sep rest
      else match split sep rest with
           | [] => [String c EmptyString]
           | h :: t => String c h :: t
           end
  end.

(** [l.join(sep)] *)
Fixpoint join (sep : string) (l : list string) : string :=
  match l with
  | [] => EmptyString
  | [x] => x
  | x :: t => x +:+ sep +:+ join sep t
  end.

(** White space removed by [String.prototype.trim], on ASCII text. *)
Definition is_space (c : ascii) : bool :=
  let n := nat_of_ascii c in
  (Nat.eqb n 32 || (Nat.leb 9 n && Nat.leb n 13))%bool.

Fixpoint trimStart (s : string) : string :=
  match s with
  | EmptyString => EmptyString
  | String c rest => if is_space c then trimStart rest else s
  end.

Fixpoint trimEnd (s : string) : string :=
  match s with
  | EmptyString => EmptyString
  | String c rest =>
      match trimEnd rest with
      | EmptyString => if is_space c then EmptyString else String c EmptyString
      | t => String c t
      end
  end.

Definition trim (s : string) : string := trimEnd (trimStart s).

(** [`${n}`] for an integer [n] (below 10^21 in absolute value, where
    JavaScript turns to the exponent notation). *)
Definition of_Z (n : Z) : string := NilZero.string_of_int (Z.to_int n).

End Js.

(* ===================================================================== *)
(** ** JSON values and [JSON.stringify(value, null, 2)] *)
(* ===================================================================== *)

Module Json.

#[local] Set Warnings "-register-all".

Inductive t :=
| JString (s : string)
| JNumber (n : Z)
| JArray (items : list t)
| JObject (fields : list (string * t)).

(** The double-quote character. *)
Definition dquote : ascii := "034"%char.

Definition hex_digit (n : nat) : ascii :=
  ascii_of_nat (if Nat.ltb n 10 then 48 + n else 87 + n).

(** One character of a quoted JSON string. *)
Definition escape (c : ascii) : string :=
  let n := nat_of_ascii c in
  if Nat.eqb n 34 then String "\" (String dquote EmptyString)
  else if Nat.eqb n 92 then "\\"
  else if Nat.eqb n 8 then "\b"
  else if Nat.eqb n 12 then "\f"
  else if Nat.eqb n 10 then "\n"
  else if Nat.eqb n 13 then "\r"
  else if Nat.eqb n 9 then "\t"
  else if Nat.ltb n 32 then
    "\u00" +:+ String (hex_digit (n / 16)) (String (hex_digit (n mod 16)) EmptyString)
  else String c EmptyString.

Fixpoint escape_all (s : string) : string :=
  match s with
  | EmptyString => EmptyString
  | String c rest => escape c +:+ escape_all rest
  end.

Definition quote (s : string) : string :=
  String dquote (escape_all s +:+ String dquote EmptyString).

Definition newline : string := String (ascii_of_nat 10) EmptyString.
Definition gap : string := "  ".

Fixpoint serialize (indent : string) (v : t) : string :=
  match v with
  | JString s => quote s
  | JNumber n => Js.of_Z n
  | JArray items =>
      match items with
      | [] => "[]"
      | _ =>
          let inner := indent +:+ gap in
          "[" +:+ newline +:+ inner
          +:+ Js.join ("," +:+ newline +:+ inner) (List.map (serialize inner) items)
          +:+ newline +:+ indent +:+ "]"
      end
  | JObject fields =>
      match fields with
      | [] => "{}"
      | _ =>
          let inner := indent +:+ gap in
          "{" +:+ newline +:+ inner
          +:+ Js.join ("," +:+ newline +:+ inner)
                (List.map (fun kv => quote (fst kv) +:+ ": " +:+ serialize inner (snd kv))
                          fields)
          +:+ newline +:+ indent +:+ "}"
      end
  end.

(** [JSON.stringify(v, null, 2)] *)
Definition stringify (v : t) : string := serialize EmptyString v.

End Json.

(* ===================================================================== *)
(** ** Data model *)
(* ===================================================================== *)

(** A string-valued parameter the code tests against [undefined], [null]
    and [''] separately (the password). *)
Inductive maybe_string :=
| JsUndefined
| JsNull
| JsStr (s : string).

(** A value that is a number or a string (the CPU limit: a number from the
    caller, the string ['1.0'] from the configuration). *)
Inductive scalar :=
| Num (n : Z)
| Text (s : string).

(** The parameter object [params], typed as the JSDoc of
    [deployVSCodeInstance] types it; [None] is an omitted ([undefined])
    property.  Numbers are integers.  [environment] lists the entries in
    [Object.entries] order. *)
Module Params.
Record t := mk {
  name : option string;
  workspace_path : option string;
  port : option Z;
  password : maybe_string;
  extensions : option (list string);
  cpu_limit : option Z;
  memory_limit : option string;
  environment : option (list (string * string));
  runtime : option string
}.
End Params.

Record ContentItem := { type : string; text : string }.

Record Details := { suggested_port : Z }.

Record ErrorInfo := { code : Z; message : string; details : option Details }.

(** The success descriptor (all properties except [content]). *)
Module Deployed.
Record t := mk {
  id : string;
  name : string;
  instance_name : string;
  runtime : string;
  port : Z;
  url : string;
  status : string;
  workspace_path : string;
  passwordless : bool
}.
End Deployed.

(** What [deployVSCodeInstance] resolves to. *)
Inductive result :=
| Failure (content : list ContentItem) (error : ErrorInfo)
| Success (content : list ContentItem) (instance : Deployed.t).

Definition content_of (r : result) : list ContentItem :=
  match r with
  | Failure c _ => c
  | Success c _ => c
  end.

(** A thrown (or rejected-with) [Error]; only [.message] is ever read. *)
Record Thrown := { error_message : string }.

(* ===================================================================== *)
(** ** The outside world *)
(* ===================================================================== *)

(** The history names the place of the source that issued a request, so
    that a statement can tell the launch from the status query, and the
    probe of the requested port from those of the allocator.  The places
    at which a command is run ... *)
Inductive exec_site :=
| DetectProbe     (* detectContainerRuntime, lines 44-61 *)
| Launch          (* line 234 *)
| StatusQuery.    (* line 284 *)

(** ... and from which the port prober is called. *)
Inductive probe_site :=
| RequestedPort   (* line 168 *)
| Allocator.      (* line 425 *)

(** What [server.listen] leads to: the ['listening'] event or an ['error']
    event with [err.code]. *)
Inductive bind_outcome :=
| Listening
| BindError (code : string).

(** One entry of the history of the process. *)
Inductive event :=
| EvExec (site : exec_site) (cmd : string) (reply : Thrown + string)
| EvAccess (path : string) (reply : option Thrown)
| EvMkdir (path : string) (reply : option Thrown)
| EvWriteFile (path data : string) (reply : option Thrown)
| EvUnlink (path : string) (reply : option Thrown)
| EvListen (site : probe_site) (port : Z) (host : string) (reply : bind_outcome)
| EvRandom (drawn : Z)
| EvUuid (uuid : string)
| EvClock (iso : string)
| EvSleep (ms : Z)
| EvLog (line : string).

(** The environment: one oracle per kind of request, each a function of the
    history so far.  [exec_reply] gives the rejection or the [stdout] of a
    command; the file-system oracles give [Some] error or [None]. *)
Record Env := {
  exec_reply : list event -> string -> Thrown + string;
  access_reply : list event -> string -> option Thrown;
  mkdir_reply : list event -> string -> option Thrown;
  writeFile_reply : list event -> string -> string -> option Thrown;
  unlink_reply : list event -> string -> option Thrown;
  listen_reply : list event -> Z -> string -> bind_outcome;
  random_reply : list event -> Z;
  uuid_reply : list event -> string;
  clock_reply : list event -> string
}.

(** What is fixed when the module is loaded: [process.env], [__dirname]
    and the pure functions of the [path] module. *)
Record Platform := {
  env_DEFAULT_PASSWORD : option string;
  env_DEFAULT_EXTENSIONS : option string;
  env_DEFAULT_CPU_LIMIT : option string;
  env_DEFAULT_MEMORY_LIMIT : option string;
  env_CONTAINER_RUNTIME : option string;
  dirname : string;
  path_resolve : string -> string;
  path_join : string -> string -> string;
  bad_port_message : Z -> string
}.

(** The state: the module variable [detectedRuntime], the files of the
    records directory, and the history, most recent event first. *)
Record World := {
  detectedRuntime : option string;
  files : gmap string string;
  trace : list event
}.

Definition log_event (ev : event) (w : World) : World :=
  {| detectedRuntime := detectedRuntime w;
     files := files w;
     trace := ev :: trace w |}.

Definition set_files (f : gmap string string) (w : World) : World :=
  {| detectedRuntime := detectedRuntime w; files := f; trace := trace w |}.

Definition set_detectedRuntime (r : string) (w : World) : World :=
  {| detectedRuntime := Some r; files := files w; trace := trace w |}.

(* ===================================================================== *)
(** ** The monad of asynchronous steps *)
(* ===================================================================== *)

Inductive outcome (A : Type) :=
| Return (a : A)
| Throw (e : Thrown).
Arguments Return {A} a.
Arguments Throw {A} e.

Definition M (A : Type) : Type := World -> outcome A * World.

Definition ret {A} (a : A) : M A := fun w => (Return a, w).

Definition throw {A} (e : Thrown) : M A := fun w => (Throw e, w).

Definition bind {A B} (m : M A) (k : A -> M B) : M B :=
  fun w =>
    match m w with
    | (Return a, w') => k a w'
    | (Throw e, w') => (Throw e, w')
    end.

(** [try { m } catch (e) { ... }] with the caught error handed over as a
    value. *)
Definition attempt {A} (m : M A) : M (Thrown + A) :=
  fun w =>
    match m w with
    | (Return a, w') => (Return (inr a), w')
    | (Throw e, w') => (Return (inl e), w')
    end.

Definition try_catch {A} (m : M A) (handler : Thrown -> M A) : M A :=
  fun w =>
    match m w with
    | (Return a, w') => (Return a, w')
    | (Throw e, w') => handler e w'
    end.

Notation "'let*' x ':=' m 'in' k" := (bind m (fun x => k))
  (at level 10, x pattern, m at level 100, k at level 200, only parsing).
Notation "m '>>' k" := (bind m (fun _ => k))
  (at level 90, right associativity, only parsing).

(* ===================================================================== *)
(** ** The program *)
(* ===================================================================== *)

Section Program.

Variable env : Env.
Variable plat : Platform.

(** *** Primitive steps *)

(** [await execAsync(cmd)], giving [stdout]. *)
Definition execAsync (site : exec_site) (cmd : string) : M string :=
  fun w =>
    let reply := exec_reply env (trace w) cmd in
    (match reply with inl e => Throw e | inr stdout => Return stdout end,
     log_event (EvExec site cmd reply) w).

(** [await fs.access(path)] *)
Definition fs_access (path : string) : M unit :=
  fun w =>
    let reply := access_reply env (trace w) path in
    (match reply with Some e => Throw e | None => Return tt end,
     log_event (EvAccess path reply) w).

(** [await fs.mkdir(path, { recursive: true })] *)
Definition fs_mkdir (path : string) : M unit :=
  fun w =>
    let reply := mkdir_reply env (trace w) path in
    (match reply with Some e => Throw e | None => Return tt end,
     log_event (EvMkdir path reply) w).

(** [await fs.writeFile(path, data)]: on success the file holds [data]. *)
Definition fs_writeFile (path data : string) : M unit :=
  fun w =>
    let reply := writeFile_reply env (trace w) path data in
    match reply with
    | Some e => (Throw e, log_event (EvWriteFile path data reply) w)
    | None =>
        (Return tt,
         log_event (EvWriteFile path data reply)
                   (set_files (<[path := data]> (files w)) w))
    end.

(** [await fs.unlink(path)]: on success the file is gone. *)
Definition fs_unlink (path : string) : M unit :=
  fun w =>
    let reply := unlink_reply env (trace w) path in
    match reply with
    | Some e => (Throw e, log_event (EvUnlink path reply) w)
    | None =>
        (Return tt,
         log_event (EvUnlink path reply) (set_files (delete path (files w)) w))
    end.

(** [server.listen(port, host)] up to the first event of the server.
    Node validates the port first and throws [ERR_SOCKET_BAD_PORT]
    outside 0..65535, without binding anything. *)
Definition net_listen (site : probe_site) (port : Z) (host : string)
  : M bind_outcome :=
  fun w =>
    if (0 <=? port) && (port <=? 65535) then
      let reply := listen_reply env (trace w) port host in
      (Return reply, log_event (EvListen site port host reply) w)
    else (Throw {| error_message := bad_port_message plat port |}, w).

(** [Math.random()]: a double of [0, 1). Every such double is
    [significand * 2^-exponent] for some [0 <= significand < 2^53] and
    [53 <= exponent <= 1074], and every such pair gives one; the number
    [drawn] stands for the double of significand [drawn mod 2^53] and of
    exponent [53 + drawn / 2^53]. *)
Definition random_denominator : Z := 2 ^ 53.
Definition random_exponents : Z := 1022.

Definition Math_random : M Z :=
  fun w =>
    let drawn :=
      random_reply env (trace w) mod (random_denominator * random_exponents) in
    (Return drawn, log_event (EvRandom drawn) w).

(** [uuidv4()] *)
Definition uuidv4 : M string :=
  fun w =>
    let u := uuid_reply env (trace w) in
    (Return u, log_event (EvUuid u) w).

(** [new Date().toISOString()] *)
Definition Date_toISOString : M string :=
  fun w =>
    let now := clock_reply env (trace w) in
    (Return now, log_event (EvClock now) w).

(** [await new Promise(resolve => setTimeout(resolve, ms))] *)
Definition setTimeout (ms : Z) : M unit :=
  fun w => (Return tt, log_event (EvSleep ms) w).

(** [console.error(line)] *)
Definition console_error (line : string) : M unit :=
  fun w => (Return tt, log_event (EvLog line) w).

Definition read_detectedRuntime : M (option string) :=
  fun w => (Return (detectedRuntime w), w).

Definition write_detectedRuntime (r : string) : M unit :=
  fun w => (Return tt, set_detectedRuntime r w).

(** *** Configuration (lines 17-21) *)

Definition DEFAULT_PASSWORD : string :=
  Js.or_default (env_DEFAULT_PASSWORD plat) "changeme".
Definition DEFAULT_EXTENSIONS : string :=
  Js.or_default (env_DEFAULT_EXTENSIONS plat)
                "ms-python.python,dbaeumer.vscode-eslint".
Definition DEFAULT_CPU_LIMIT : string :=
  Js.or_default (env_DEFAULT_CPU_LIMIT plat) "1.0".
Definition DEFAULT_MEMORY_LIMIT : string :=
  Js.or_default (env_DEFAULT_MEMORY_LIMIT plat) "2g".
Definition CONTAINER_RUNTIME : string :=
  Js.or_default (env_CONTAINER_RUNTIME plat) "auto".

(** *** detectContainerRuntime (lines 30-73) *)

(** The two blocks of lines 42-55 and 57-70 differ in the engine name and
    the log lines only: [--version], then [ps]; when both answer the
    engine is cached and returned, otherwise control falls through to
    [otherwise]. *)
Definition try_engine (engine announce complaint : string)
           (otherwise : M string) : M string :=
  let* tried :=
    attempt
      (execAsync DetectProbe (engine +:+ " --version") >>
       let* ps := attempt (execAsync DetectProbe (engine +:+ " ps")) in
       match ps with
       | inr _ =>
           write_detectedRuntime engine >>
           console_error announce >>
           ret (Some engine)
       | inl _ => console_error complaint >> ret None
       end) in
  match tried with
  | inr (Some found) => ret found
  | _ => otherwise
  end.

(** Lines 36-72: what runs when the cache holds nothing. *)
Definition detect_uncached : M string :=
  if negb (String.eqb CONTAINER_RUNTIME "auto") then
    write_detectedRuntime CONTAINER_RUNTIME >> ret CONTAINER_RUNTIME
  else
    try_engine "docker" "Detected container runtime: Docker"
               "Docker is installed but daemon is not running"
      (try_engine "podman" "Detected container runtime: Podman"
                  "Podman is installed but not working properly"
         (throw {| error_message :=
            "Neither Docker nor Podman is available or running. Please install and start one of them." |})).

Definition detectContainerRuntime : M string :=
  let* cached := read_detectedRuntime in
  match cached with
  | Some r => if Js.truthy r then ret r else detect_uncached
  | None => detect_uncached
  end.

(** *** checkPortAvailability (lines 388-411) *)

Definition checkPortAvailability (site : probe_site) (port : Z) : M bool :=
  let* heard := net_listen site port "0.0.0.0" in
  match heard with
  | BindError code =>
      if String.eqb code "EADDRINUSE" then ret false else ret true
  | Listening => ret true
  end.

(** *** getRandomPort (lines 417-434) *)

Definition minPort : Z := 10000.
Definition maxPort : Z := 65535.
Definition maxAttempts : nat := 10.

Definition significand (drawn : Z) : Z := drawn mod random_denominator.
Definition exponent (drawn : Z) : Z := 53 + drawn / random_denominator.

(** Rounding of IEEE 754 doubles, on integers: the integer of at most 53
    significant bits nearest to [n], the one with an even significand
    when two are as near. *)
Definition round_to_double (n : Z) : Z :=
  if n <? 2 ^ 53 then n
  else
    let e := Z.log2 n - 52 in
    let q := n / 2 ^ e in
    let r := n mod 2 ^ e in
    let half := 2 ^ (e - 1) in
    if (r <? half) || ((r =? half) && Z.even q) then q * 2 ^ e
    else (q + 1) * 2 ^ e.

(** [Math.floor(Math.random() * (maxPort - minPort + 1)) + minPort]. The
    product of the two doubles is their exact product rounded to a
    double: with the random double [significand * 2^-exponent] it is
    the rounded integer [significand * 55536] scaled by [2^-exponent]
    (an exact product below 2^53 is a double as it is, and a larger one
    is far from underflow). [Math.floor] and the sum are exact. *)
Definition candidate_port (drawn : Z) : Z :=
  round_to_double (significand drawn * (maxPort - minPort + 1))
  / 2 ^ exponent drawn
  + minPort.

(** The [for] loop with [remaining] iterations to go. *)
Fixpoint getRandomPort_from (remaining : nat) : M Z :=
  match remaining with
  | O =>
      throw {| error_message :=
        "Could not find an available port after multiple attempts" |}
  | S fewer =>
      let* drawn := Math_random in
      let port := candidate_port drawn in
      let* isAvailable := checkPortAvailability Allocator port in
      if isAvailable then ret port else getRandomPort_from fewer
  end.

Definition getRandomPort : M Z := getRandomPort_from maxAttempts.

(** *** buildContainerCommand (lines 350-381) *)

Definition scalar_text (v : scalar) : string :=
  match v with
  | Num n => Js.of_Z n
  | Text s => s
  end.

Definition envVars (environment : list (string * string)) : string :=
  Js.join " "
    (List.map (fun kv => "-e " +:+ fst kv +:+ "=" +:+ snd kv) environment).

Definition restartFlag (runtime : string) : string :=
  if String.eqb runtime "podman" then "--restart=unless-stopped"
  else "--restart unless-stopped".

Definition passwordEnv (password : maybe_string) : string :=
  match password with
  | JsStr EmptyString | JsUndefined | JsNull => EmptyString
  | JsStr s => "-e PASSWORD=" +:+ s
  end.

(** The template literal: a backslash before the line break continues the
    line, so each line contributes its last blank and the four blanks
    that indent the next one. *)
Definition buildContainerCommand
           (runtime instanceName workspacePath : string) (port : Z)
           (password : maybe_string) (extensions : list string)
           (cpuLimit : scalar) (memoryLimit : string)
           (environment : list (string * string)) : string :=
  let extensionsList := Js.join "," extensions in
  runtime +:+ " run -d "
  +:+ "    --name " +:+ instanceName +:+ " "
  +:+ "    " +:+ restartFlag runtime +:+ " "
  +:+ "    -p " +:+ Js.of_Z port +:+ ":8080 "
  +:+ "    -v " +:+ workspacePath +:+ ":/workspace "
  +:+ "    -v vscode-data-" +:+ instanceName +:+ ":/home/coder/.local/share/code-server "
  +:+ "    -v vscode-extensions-" +:+ instanceName +:+ ":/home/coder/.vscode/extensions "
  +:+ "    --cpus=" +:+ scalar_text cpuLimit +:+ " "
  +:+ "    --memory=" +:+ memoryLimit +:+ " "
  +:+ "    " +:+ envVars environment +:+ " "
  +:+ "    " +:+ passwordEnv password +:+ " "
  +:+ "    -e EXTENSIONS=" +:+ extensionsList +:+ " "
  +:+ "    codercom/code-server:latest".

(** *** deployVSCodeInstance (lines 89-335) *)

Definition fail_with (text_ : string) (code_ : Z) (message_ : string)
           (details_ : option Details) : result :=
  Failure [ {| type := "text"; text := text_ |} ]
          {| code := code_; message := message_; details := details_ |}.

(** A string property that is truthy. *)
Definition truthy_string (o : option string) : option string :=
  match o with
  | Some s => if Js.truthy s then Some s else None
  | None => None
  end.

(** A number property that is truthy. *)
Definition truthy_number (o : option Z) : option Z :=
  match o with
  | Some n => if n =? 0 then None else Some n
  | None => None
  end.

(** Line 194: the default only when the property is [undefined]. *)
Definition resolve_password (p : maybe_string) : maybe_string :=
  match p with
  | JsUndefined => JsStr DEFAULT_PASSWORD
  | given => given
  end.

(** Line 197 *)
Definition resolve_extensions (params : Params.t) : list string :=
  match Params.extensions params with
  | Some given => given
  | None => Js.split "," DEFAULT_EXTENSIONS
  end.

(** Lines 200-201 *)
Definition resolve_cpuLimit (params : Params.t) : scalar :=
  match truthy_number (Params.cpu_limit params) with
  | Some n => Num n
  | None => Text DEFAULT_CPU_LIMIT
  end.

Definition resolve_memoryLimit (params : Params.t) : string :=
  Js.or_default (Params.memory_limit params) DEFAULT_MEMORY_LIMIT.

(** Line 204 *)
Definition resolve_environment (params : Params.t) : list (string * string) :=
  match Params.environment params with
  | Some given => given
  | None => []
  end.

(** Truthiness of the resolved password (lines 302, 318). *)
Definition password_truthy (p : maybe_string) : bool :=
  match p with
  | JsStr s => Js.truthy s
  | _ => false
  end.

Definition password_text (p : maybe_string) : string :=
  match p with
  | JsStr s => s
  | JsNull => "null"
  | JsUndefined => "undefined"
  end.

Definition scalar_json (v : scalar) : Json.t :=
  match v with
  | Num n => Json.JNumber n
  | Text s => Json.JString s
  end.

(** Lines 211-222. *)
Definition instanceConfig (instanceId name instanceName workspacePath : string)
           (port : Z) (extensions : list string) (cpuLimit : scalar)
           (memoryLimit : string) (environment : list (string * string))
           (created_at : string) : Json.t :=
  Json.JObject
    [ ("id", Json.JString instanceId);
      ("name", Json.JString name);
      ("instance_name", Json.JString instanceName);
      ("workspace_path", Json.JString workspacePath);
      ("port", Json.JNumber port);
      ("extensions", Json.JArray (List.map Json.JString extensions));
      ("cpu_limit", scalar_json cpuLimit);
      ("memory_limit", Json.JString memoryLimit);
      ("environment",
        Json.JObject (List.map (fun kv => (fst kv, Json.JString (snd kv))) environment));
      ("created_at", Json.JString created_at) ].

Definition statusCommand (runtime instanceName : string) : string :=
  runtime +:+ " ps --filter "
  +:+ String Json.dquote ("name=" +:+ instanceName
  +:+ String Json.dquote (" --format "
  +:+ String Json.dquote ("{{.Status}}"
  +:+ String Json.dquote EmptyString))).

(** Lines 228-319: launch, collision recovery, verification. *)
Definition deploy_launch (name runtime instanceId instanceName workspacePath : string)
           (port : Z) (password : maybe_string) (extensions : list string)
           (cpuLimit : scalar) (memoryLimit : string)
           (environment : list (string * string)) (configPath : string)
  : M result :=
  let containerCommand :=
    buildContainerCommand runtime instanceName workspacePath port password
                          extensions cpuLimit memoryLimit environment in
  let* launched :=
    attempt
      (console_error ("Executing: " +:+ String.substring 0 100 containerCommand +:+ "...") >>
       execAsync Launch containerCommand) in
  match launched with
  | inl error =>
      if Js.includes "port is already allocated" (error_message error) then
        let* unlinked := attempt (fs_unlink configPath) in
        match unlinked with
        | inl unlinkError =>
            console_error ("Failed to clean up config file: " +:+ error_message unlinkError)
        | inr _ => ret tt
        end >>
        let* alternativePort := getRandomPort in
        ret (fail_with
               ("Error: Port " +:+ Js.of_Z port +:+ " is already allocated. Consider using port "
                +:+ Js.of_Z alternativePort +:+ " instead.")
               (-32603)
               ("Port " +:+ Js.of_Z port +:+ " is already allocated")
               (Some {| suggested_port := alternativePort |}))
      else
        ret (fail_with
               ("Error deploying " +:+ runtime +:+ " container: " +:+ error_message error)
               (-32603)
               ("Failed to deploy " +:+ runtime +:+ " container: " +:+ error_message error)
               None)
  | inr _ =>
      setTimeout 2000 >>
      let* containerStatus := execAsync StatusQuery (statusCommand runtime instanceName) in
      if negb (Js.truthy (Js.trim containerStatus)) then
        ret (fail_with "Error: Failed to start VSCode instance" (-32603)
                       "Failed to start VSCode instance" None)
      else
        let authInfo :=
          if password_truthy password then "Password: " +:+ password_text password
          else "Authentication: Passwordless" in
        ret (Success
               [ {| type := "text";
                    text := "VSCode instance deployed successfully!" +:+ Json.newline +:+ Json.newline
                            +:+ "Runtime: " +:+ runtime +:+ Json.newline
                            +:+ "Name: " +:+ name +:+ Json.newline
                            +:+ "Instance ID: " +:+ instanceId +:+ Json.newline
                            +:+ "URL: http://localhost:" +:+ Js.of_Z port +:+ Json.newline
                            +:+ authInfo +:+ Json.newline
                            +:+ "Status: running" +:+ Json.newline
                            +:+ "Workspace: " +:+ workspacePath |} ]
               {| Deployed.id := instanceId;
                  Deployed.name := name;
                  Deployed.instance_name := instanceName;
                  Deployed.runtime := runtime;
                  Deployed.port := port;
                  Deployed.url := "http://localhost:" +:+ Js.of_Z port;
                  Deployed.status := "running";
                  Deployed.workspace_path := workspacePath;
                  Deployed.passwordless := negb (password_truthy password) |})
  end.

(** Lines 193-226: defaults, the records directory, the record; then the
    launch. *)
Definition deploy_persist (params : Params.t)
           (name runtime instanceId instanceName workspacePath : string)
           (port : Z) : M result :=
  let password := resolve_password (Params.password params) in
  let extensions := resolve_extensions params in
  let cpuLimit := resolve_cpuLimit params in
  let memoryLimit := resolve_memoryLimit params in
  let environment := resolve_environment params in
  let instancesDir := path_join plat (dirname plat) "../../vscode-instances" in
  fs_mkdir instancesDir >>
  let* created_at := Date_toISOString in
  let config :=
    instanceConfig instanceId name instanceName workspacePath port extensions
                   cpuLimit memoryLimit environment created_at in
  let configPath := path_join plat instancesDir (instanceName +:+ ".json") in
  fs_writeFile configPath (Json.stringify config) >>
  deploy_launch name runtime instanceId instanceName workspacePath port password
                extensions cpuLimit memoryLimit environment configPath.

(** Lines 121-191: runtime, identifiers, workspace, port. *)
Definition deploy_resolve (params : Params.t) (name workspace_path : string)
  : M result :=
  let* resolved :=
    attempt
      match truthy_string (Params.runtime params) with
      | Some override => ret override
      | None => detectContainerRuntime
      end in
  match resolved with
  | inl error =>
      ret (fail_with ("Error: " +:+ error_message error) (-32603)
                     (error_message error) None)
  | inr runtime =>
      let* uuid := uuidv4 in
      let instanceId := String.substring 0 8 uuid in
      let instanceName := "vscode-" +:+ name +:+ "-" +:+ instanceId in
      let workspacePath := path_resolve plat workspace_path in
      let* accessible := attempt (fs_access workspacePath) in
      match accessible with
      | inl _ =>
          ret (fail_with ("Error: Workspace path not found: " +:+ workspacePath)
                         (-32602)
                         ("Workspace path not found: " +:+ workspacePath) None)
      | inr _ =>
          match truthy_number (Params.port params) with
          | Some port =>
              let* isPortAvailable := checkPortAvailability RequestedPort port in
              if negb isPortAvailable then
                let* alternativePort := getRandomPort in
                ret (fail_with
                       ("Error: Port " +:+ Js.of_Z port
                        +:+ " is already in use. Consider using port "
                        +:+ Js.of_Z alternativePort +:+ " instead.")
                       (-32603)
                       ("Port " +:+ Js.of_Z port +:+ " is already in use")
                       (Some {| suggested_port := alternativePort |}))
              else
                deploy_persist params name runtime instanceId instanceName
                               workspacePath port
          | None =>
              let* port := getRandomPort in
              deploy_persist params name runtime instanceId instanceName
                             workspacePath port
          end
      end
  end.

Definition deployVSCodeInstance (params : Params.t) : M result :=
  match truthy_string (Params.name params) with
  | None =>
      ret (fail_with "Error: name parameter is required" (-32602)
                     "name parameter is required" None)
  | Some name =>
      match truthy_string (Params.workspace_path params) with
      | None =>
          ret (fail_with "Error: workspace_path parameter is required" (-32602)
                         "workspace_path parameter is required" None)
      | Some workspace_path =>
          try_catch (deploy_resolve params name workspace_path)
            (fun error =>
               console_error ("Error in deployVSCodeInstance: " +:+ error_message error) >>
               ret (fail_with
                      ("Error: Failed to deploy VSCode instance: " +:+ error_message error)
                      (-32603)
                      ("Failed to deploy VSCode instance: " +:+ error_message error)
                      None))
      end
  end.

End Program.

(** The world of a process that has just loaded the module. *)
Definition fresh_world : World :=
  {| detectedRuntime := None; files := ∅; trace := [] |}.

(** The events a run from [w] to [w'] added, most recent first. *)
Definition events_since (w w' : World) : list event :=
  take (length (trace w') - length (trace w)) (trace w').

(** [earlier] happened before [later] in a history (most recent first). *)
Inductive precedes (earlier later : event) : list event -> Prop :=
| precedes_here rest : In earlier rest -> precedes earlier later (later :: rest)
| precedes_skip ev rest :
    precedes earlier later rest -> precedes earlier later (ev :: rest).

(** *** Kinds of events *)

Definition is_busy (reply : bind_outcome) : bool :=
  match reply with
  | BindError code => String.eqb code "EADDRINUSE"
  | Listening => false
  end.

(** Events of [detectContainerRuntime]. *)
Definition detection_event (ev : event) : bool :=
  match ev with
  | EvExec DetectProbe _ _ | EvLog _ => true
  | _ => false
  end.

(** Events of [getRandomPort]. *)
Definition allocator_event (ev : event) : bool :=
  match ev with
  | EvRandom _ | EvListen Allocator _ _ _ => true
  | _ => false
  end.

Definition is_probe (ev : event) : bool :=
  match ev with
  | EvListen _ _ _ _ => true
  | _ => false
  end.

(** A probe that found its port in use; other events count as vacuous. *)
Definition probe_busy (ev : event) : bool :=
  match ev with
  | EvListen _ _ _ reply => is_busy reply
  | _ => true
  end.

(** Events that touch the records directory or start or query a
    container. *)
Definition side_effect (ev : event) : bool :=
  match ev with
  | EvMkdir _ _ | EvWriteFile _ _ _ | EvUnlink _ _ => true
  | EvExec Launch _ _ | EvExec StatusQuery _ _ => true
  | _ => false
  end.

Definition is_write (ev : event) : bool :=
  match ev with
  | EvWriteFile _ _ _ => true
  | _ => false
  end.

Definition is_unlink (ev : event) : bool :=
  match ev with
  | EvUnlink _ _ => true
  | _ => false
  end.

(** A launch error the code takes for a port collision (line 237). *)
Definition is_collision (reply : Thrown + string) : bool :=
  match reply with
  | inl error => Js.includes "port is already allocated" (error_message error)
  | inr _ => false
  end.

(** The credential flag of the launch command. *)
Definition credential_flag : string := "-e PASSWORD=".

(** *** Concrete environments *)

Definition plain_platform : Platform :=
  {| env_DEFAULT_PASSWORD := None;
     env_DEFAULT_EXTENSIONS := None;
     env_DEFAULT_CPU_LIMIT := None;
     env_DEFAULT_MEMORY_LIMIT := None;
     env_CONTAINER_RUNTIME := None;
     dirname := "/app/src/tools";
     path_resolve := fun p => p;
     path_join := fun a b => a +:+ "/" +:+ b;
     bad_port_message := fun _ => "options.port should be >= 0 and < 65536." |}.

(** A draw, of exponent 53, for which [candidate_port] is [port]. *)
Definition numerator_for (port : Z) : Z :=
  ((port - minPort) * random_denominator) / (maxPort - minPort + 1) + 1.

(** Everything works; every port is free; the random source draws
    [drawn]. *)
Definition friendly_env (drawn : Z) : Env :=
  {| exec_reply := fun _ _ => inr "Up 2 seconds";
     access_reply := fun _ _ => None;
     mkdir_reply := fun _ _ => None;
     writeFile_reply := fun _ _ _ => None;
     unlink_reply := fun _ _ => None;
     listen_reply := fun _ _ _ => Listening;
     random_reply := fun _ => numerator_for drawn;
     uuid_reply := fun _ => "0f8fad5b-d9cb-469f-a165-70867728950e";
     clock_reply := fun _ => "2024-01-01T00:00:00.000Z" |}.

(** Every command fails the way the engine reports a taken port; the
    record cannot be unlinked when [unlink_fails]. *)
Definition colliding_env (drawn : Z) (unlink_fails : bool) : Env :=
  {| exec_reply := fun _ _ =>
       inl {| error_message :=
         "Bind for 0.0.0.0:12345 failed: port is already allocated" |};
     access_reply := fun _ _ => None;
     mkdir_reply := fun _ _ => None;
     writeFile_reply := fun _ _ _ => None;
     unlink_reply := fun _ _ =>
       if unlink_fails then Some {| error_message := "EPERM: operation not permitted" |}
       else None;
     listen_reply := fun _ _ _ => Listening;
     random_reply := fun _ => numerator_for drawn;
     uuid_reply := fun _ => "0f8fad5b-d9cb-469f-a165-70867728950e";
     clock_reply := fun _ => "2024-01-01T00:00:00.000Z" |}.

(** The ports of [taken] are in use, the others free. *)
Definition crowded_env (taken : Z -> bool) (drawn : Z) : Env :=
  {| exec_reply := fun _ _ => inr "Up 2 seconds";
     access_reply := fun _ _ => None;
     mkdir_reply := fun _ _ => None;
     writeFile_reply := fun _ _ _ => None;
     unlink_reply := fun _ _ => None;
     listen_reply := fun _ port _ =>
       if taken port then BindError "EADDRINUSE" else Listening;
     random_reply := fun _ => numerator_for drawn;
     uuid_reply := fun _ => "0f8fad5b-d9cb-469f-a165-70867728950e";
     clock_reply := fun _ => "2024-01-01T00:00:00.000Z" |}.

(** The parameter object of the end-to-end scenarios. *)
Definition demo_params : Params.t :=
  {| Params.name := Some "demo";
     Params.workspace_path := Some "/tmp/ws";
     Params.port := Some 12345;
     Params.password := JsStr "";
     Params.extensions := None;
     Params.cpu_limit := None;
     Params.memory_limit := None;
     Params.environment := None;
     Params.runtime := None |}.

Definition with_runtime (r : string) (p : Params.t) : Params.t :=
  {| Params.name := Params.name p;
     Params.workspace_path := Params.workspace_path p;
     Params.port := Params.port p;
     Params.password := Params.password p;
     Params.extensions := Params.extensions p;
     Params.cpu_limit := Params.cpu_limit p;
     Params.memory_limit := Params.memory_limit p;
     Params.environment := Params.environment p;
     Params.runtime := Some r |}.

Definition with_password (pw : maybe_string) (p : Params.t) : Params.t :=
  {| Params.name := Params.name p;
     Params.workspace_path := Params.workspace_path p;
     Params.port := Params.port p;
     Params.password := pw;
     Params.extensions := Params.extensions p;
     Params.cpu_limit := Params.cpu_limit p;
     Params.memory_limit := Params.memory_limit p;
     Params.environment := Params.environment p;
     Params.runtime := Params.runtime p |}.

Definition with_environment (environment : option (list (string * string)))
           (p : Params.t) : Params.t :=
  {| Params.name := Params.name p;
     Params.workspace_path := Params.workspace_path p;
     Params.port := Params.port p;
     Params.password := Params.password p;
     Params.extensions := Params.extensions p;
     Params.cpu_limit := Params.cpu_limit p;
     Params.memory_limit := Params.memory_limit p;
     Params.environment := environment;
     Params.runtime := Params.runtime p |}.

(** The platform with another [DEFAULT_PASSWORD] in its environment. *)
Definition with_default_password (default : option string) (plat : Platform)
  : Platform :=
  {| env_DEFAULT_PASSWORD := default;
     env_DEFAULT_EXTENSIONS := env_DEFAULT_EXTENSIONS plat;
     env_DEFAULT_CPU_LIMIT := env_DEFAULT_CPU_LIMIT plat;
     env_DEFAULT_MEMORY_LIMIT := env_DEFAULT_MEMORY_LIMIT plat;
     env_CONTAINER_RUNTIME := env_CONTAINER_RUNTIME plat;
     dirname := dirname plat;
     path_resolve := path_resolve plat;
     path_join := path_join plat;
     bad_port_message := bad_port_message plat |}.

(** *** Reasoning about runs *)

(** [wpe m w Q]: the run of [m] from [w] adds some events [evs] to the
    history, and its outcome, these events and its final world satisfy
    [Q]. *)
Definition wpe {A} (m : M A) (w : World)
           (Q : outcome A -> list event -> World -> Prop) : Prop :=
  exists evs, trace (snd (m w)) = evs ++ trace w /\ Q (fst (m w)) evs (snd (m w)).

Definition probe_count (evs : list event) : nat :=
  length (List.filter is_probe evs).

Definition exhaustion_message : string :=
  "Could not find an available port after multiple attempts".

(** What a run of the allocator with [attempts] iterations can produce. *)
Definition allocation (attempts : nat) (o : outcome Z) (evs : list event) : Prop :=
  Forall (fun ev => allocator_event ev = true) evs /\
  match o with
  | Return port =>
      minPort <= port <= maxPort /\
      (probe_count evs <= attempts)%nat /\
      exists reply rest,
        evs = EvListen Allocator port "0.0.0.0" reply :: rest /\
        is_busy reply = false
  | Throw e =>
      error_message e = exhaustion_message /\
      probe_count evs = attempts /\
      forallb probe_busy evs = true
  end.

(** The launch command is a sequence of options that the template sets
    five blanks apart (a blank at the end of a line, then the four that
    indent the next one): those before the password option, and those
    after it. *)
Definition blanks : string := "     ".

Definition options_before (runtime instanceName workspacePath : string) (port : Z)
           (cpuLimit : scalar) (memoryLimit : string)
           (environment : list (string * string)) : list string :=
  [ runtime +:+ " run -d";
    "--name " +:+ instanceName;
    restartFlag runtime;
    "-p " +:+ Js.of_Z port +:+ ":8080";
    "-v " +:+ workspacePath +:+ ":/workspace";
    "-v vscode-data-" +:+ instanceName +:+ ":/home/coder/.local/share/code-server";
    "-v vscode-extensions-" +:+ instanceName +:+ ":/home/coder/.vscode/extensions";
    "--cpus=" +:+ scalar_text cpuLimit;
    "--memory=" +:+ memoryLimit;
    envVars environment ].

Definition options_after (extensions : list string) : list string :=
  [ "-e EXTENSIONS=" +:+ Js.join "," extensions;
    "codercom/code-server:latest" ].

(** The credential flags that a list of options carries. *)
Definition flags_in (options : list string) : nat :=
  fold_right (fun option n => (Js.occurrences credential_flag option + n)%nat) 0%nat
             options.

(** A text without two blanks in a row and without a blank at its end. *)
Fixpoint blank_tight (pat : string) : bool :=
  match pat with
  | EmptyString => true
  | String c rest =>
      match rest with
      | EmptyString => negb (Ascii.eqb c " ")
      | String d _ => negb (Ascii.eqb c " " && Ascii.eqb d " ") && blank_tight rest
      end
  end.

(** A probe command of [detectContainerRuntime]. *)
Definition is_detect_probe (ev : event) : bool :=
  match ev with
  | EvExec DetectProbe _ _ => true
  | _ => false
  end.

(** *** Five sentences of the specification, as they are written *)

(** The rollback scenario: the port was requested and passed its probe,
    the engine then reported it allocated. *)
Definition rollback_as_stated (env : Env) (plat : Platform)
           (params : Params.t) (w : World) : Prop :=
  let run := deployVSCodeInstance env plat params w in
  let evs := events_since w (snd run) in
  forall requested host probe cmd error,
    truthy_number (Params.port params) = Some requested ->
    In (EvListen RequestedPort requested host probe) evs ->
    is_busy probe = false ->
    In (EvExec Launch cmd (inl error)) evs ->
    Js.includes "port is already allocated" (error_message error) = true ->
    (forall path data reply,
        In (EvWriteFile path data reply) evs -> files (snd run) !! path = None) /\
    exists content err alt,
      fst run = Return (Failure content err) /\
      details err = Some {| suggested_port := alt |} /\
      alt <> requested.

(** An override becomes the cache, and a later detection returns it. *)
Definition override_cached_as_stated (env : Env) (plat : Platform)
           (params : Params.t) (w : World) : Prop :=
  forall override,
    truthy_string (Params.runtime params) = Some override ->
    let after := snd (deployVSCodeInstance env plat params w) in
    detectedRuntime after = Some override /\
    fst (detectContainerRuntime env plat after) = Return override.

(** A requested port found occupied: a conflict with a suggested port, and
    no side effects. *)
Definition conflict_as_stated (env : Env) (plat : Platform)
           (params : Params.t) (w : World) : Prop :=
  let run := deployVSCodeInstance env plat params w in
  let evs := events_since w (snd run) in
  forall requested host probe,
    In (EvListen RequestedPort requested host probe) evs ->
    is_busy probe = true ->
    (exists content err alt,
        fst run = Return (Failure content err) /\
        details err = Some {| suggested_port := alt |}) /\
    files (snd run) = files w /\
    forall ev, In ev evs -> side_effect ev = false.

(** The passwordless property of the launch command. *)
Definition passwordless_as_stated (plat : Platform)
           (runtime instanceName workspacePath : string) (port : Z)
           (extensions : list string) (cpuLimit : scalar) (memoryLimit : string)
           (environment : list (string * string)) : Prop :=
  let command password :=
    buildContainerCommand runtime instanceName workspacePath port
                          (resolve_password plat password)
                          extensions cpuLimit memoryLimit environment in
  Js.occurrences credential_flag (command (JsStr EmptyString)) = 0%nat /\
  Js.occurrences credential_flag (command JsUndefined) = 1%nat.

(** A credential of a launch command: the text that one of its credential
    flags carries, up to the next blank. *)
Definition credential_of (cmd value : string) : Prop :=
  value <> EmptyString /\
  Js.has_char " " value = false /\
  Js.includes (credential_flag +:+ value +:+ " ") cmd = true.

(** The record holds no credential of the instance that is launched. *)
Definition record_as_stated (env : Env) (plat : Platform)
           (params : Params.t) (w : World) : Prop :=
  let run := deployVSCodeInstance env plat params w in
  let evs := events_since w (snd run) in
  forall path data reply cmd launched value,
    In (EvWriteFile path data reply) evs ->
    In (EvExec Launch cmd launched) evs ->
    credential_of cmd value ->
    Js.includes value data = false.

(** The launch command and the record of the demo scenario in
    [friendly_env]. *)
Definition demo_command : string :=
  buildContainerCommand "docker" "vscode-demo-0f8fad5b" "/tmp/ws" 12345
                        (JsStr EmptyString)
                        ["ms-python.python"; "dbaeumer.vscode-eslint"]
                        (Text "1.0") "2g" [].

Definition demo_record_path : string :=
  "/app/src/tools/../../vscode-instances/vscode-demo-0f8fad5b.json".

Definition demo_record : string :=
  Json.stringify
    (instanceConfig "0f8fad5b" "demo" "vscode-demo-0f8fad5b" "/tmp/ws" 12345
                    ["ms-python.python"; "dbaeumer.vscode-eslint"]
                    (Text "1.0") "2g" [] "2024-01-01T00:00:00.000Z").

(** A text in which the double quotes are written as single quotes. *)
Fixpoint quoted (s : string) : string :=
  match s with
  | EmptyString => EmptyString
  | String c rest =>
      String (if Ascii.eqb c "'" then Json.dquote else c) (quoted rest)
  end.

(** The same command and the same record, to the letter. *)
Definition demo_command_text : string :=
  "docker run -d     --name vscode-demo-0f8fad5b     --restart unless-stopped     -p 12345:8080     -v /tmp/ws:/workspace     -v vscode-data-vscode-demo-0f8fad5b:/home/coder/.local/share/code-server     -v vscode-extensions-vscode-demo-0f8fad5b:/home/coder/.vscode/extensions     --cpus=1.0     --memory=2g               -e EXTENSIONS=ms-python.python,dbaeumer.vscode-eslint     codercom/code-server:latest".

Definition demo_record_text : string :=
  quoted "{
  'id': '0f8fad5b',
  'name': 'demo',
  'instance_name': 'vscode-demo-0f8fad5b',
  'workspace_path': '/tmp/ws',
  'port': 12345,
  'extensions': [
    'ms-python.python',
    'dbaeumer.vscode-eslint'
  ],
  'cpu_limit': '1.0',
  'memory_limit': '2g',
  'environment': {},
  'created_at': '2024-01-01T00:00:00.000Z'
}".

Definition demo_status_command : string :=
  statusCommand "docker" "vscode-demo-0f8fad5b".

Definition collision_error : Thrown :=
  {| error_message := "Bind for 0.0.0.0:12345 failed: port is already allocated" |}.

(** The writes of a history. *)
Definition writes (evs : list event) : list event := List.filter is_write evs.

(** Two runs from [w] that write the same files with the same contents. *)
Definition same_writes {A B} (w : World)
           (r1 : outcome A * World) (r2 : outcome B * World) : Prop :=
  exists evs1 evs2,
    trace (snd r1) = evs1 ++ trace w /\
    trace (snd r2) = evs2 ++ trace w /\
    writes evs1 = writes evs2.

(** A run that writes nothing. *)
Definition silent {A} (o : outcome A) (evs : list event) (w : World) : Prop :=
  writes evs = [].

(** *** Further notions for the properties of the whole module *)

Definition is_exec (ev : event) : bool :=
  match ev with
  | EvExec _ _ _ => true
  | _ => false
  end.

Definition is_launch (ev : event) : bool :=
  match ev with
  | EvExec Launch _ _ => true
  | _ => false
  end.

(** How many events of a history are of a kind. *)
Definition count (kind : event -> bool) (evs : list event) : nat :=
  length (List.filter kind evs).

Definition neither_message : string :=
  "Neither Docker nor Podman is available or running. Please install and start one of them.".

(** What a run of [detectContainerRuntime] from [w] can produce. *)
Definition detection (w : World) (o : outcome string) (evs : list event)
           (w' : World) : Prop :=
  files w' = files w /\
  Forall (fun ev => detection_event ev = true) evs /\
  (count is_exec evs <= 4)%nat /\
  match o with
  | Return r => detectedRuntime w' = Some r /\ Js.truthy r = true
  | Throw e =>
      error_message e = neither_message /\
      detectedRuntime w' = detectedRuntime w
  end.

(** The records directory and the record file of an instance (lines 207
    and 225). *)
Definition records_dir (plat : Platform) : string :=
  path_join plat (dirname plat) "../../vscode-instances".

Definition record_path (plat : Platform) (instanceName : string) : string :=
  path_join plat (records_dir plat) (instanceName +:+ ".json").

(** The parameters with every falsy value taken out. *)
Definition without_falsy (p : Params.t) : Params.t :=
  {| Params.name := truthy_string (Params.name p);
     Params.workspace_path := truthy_string (Params.workspace_path p);
     Params.port := truthy_number (Params.port p);
     Params.password := Params.password p;
     Params.extensions := Params.extensions p;
     Params.cpu_limit := truthy_number (Params.cpu_limit p);
     Params.memory_limit := truthy_string (Params.memory_limit p);
     Params.environment := Params.environment p;
     Params.runtime := truthy_string (Params.runtime p) |}.

(** A platform whose configuration forces an engine. *)
Definition forced_platform (engine : string) : Platform :=
  {| env_DEFAULT_PASSWORD := None;
     env_DEFAULT_EXTENSIONS := None;
     env_DEFAULT_CPU_LIMIT := None;
     env_DEFAULT_MEMORY_LIMIT := None;
     env_CONTAINER_RUNTIME := Some engine;
     dirname := "/app/src/tools";
     path_resolve := fun p => p;
     path_join := fun a b => a +:+ "/" +:+ b;
     bad_port_message := fun _ => "options.port should be >= 0 and < 65536." |}.

(** Commands of the given engines fail, the others succeed; every port is
    free. *)
Definition failing_env (fails : string -> bool) : Env :=
  {| exec_reply := fun _ cmd =>
       if fails cmd then inl {| error_message := "Command failed: " +:+ cmd |}
       else inr "Up 2 seconds";
     access_reply := fun _ _ => None;
     mkdir_reply := fun _ _ => None;
     writeFile_reply := fun _ _ _ => None;
     unlink_reply := fun _ _ => None;
     listen_reply := fun _ _ _ => Listening;
     random_reply := fun _ => numerator_for 10000;
     uuid_reply := fun _ => "0f8fad5b-d9cb-469f-a165-70867728950e";
     clock_reply := fun _ => "2024-01-01T00:00:00.000Z" |}.


(** A world in which [r] has been detected before. *)
Definition cached_world (r : string) : World :=
  {| detectedRuntime := Some r; files := ∅; trace := [] |}.


Definition with_port (port : option Z) (p : Params.t) : Params.t :=
  {| Params.name := Params.name p;
     Params.workspace_path := Params.workspace_path p;
     Params.port := port;
     Params.password := Params.password p;
     Params.extensions := Params.extensions p;
     Params.cpu_limit := Params.cpu_limit p;
     Params.memory_limit := Params.memory_limit p;
     Params.environment := Params.environment p;
     Params.runtime := Params.runtime p |}.

(** The result of the demo scenario in [friendly_env]. *)
Definition demo_instance : Deployed.t :=
  {| Deployed.id := "0f8fad5b";
     Deployed.name := "demo";
     Deployed.instance_name := "vscode-demo-0f8fad5b";
     Deployed.runtime := "docker";
     Deployed.port := 12345;
     Deployed.url := "http://localhost:12345";
     Deployed.status := "running";
     Deployed.workspace_path := "/tmp/ws";
     Deployed.passwordless := true |}.

Definition demo_content : list ContentItem :=
  [ {| type := "text";
       text := "VSCode instance deployed successfully!" +:+ Json.newline +:+ Json.newline
               +:+ "Runtime: docker" +:+ Json.newline
               +:+ "Name: demo" +:+ Json.newline
               +:+ "Instance ID: 0f8fad5b" +:+ Json.newline
               +:+ "URL: http://localhost:12345" +:+ Json.newline
               +:+ "Authentication: Passwordless" +:+ Json.newline
               +:+ "Status: running" +:+ Json.newline
               +:+ "Workspace: /tmp/ws" |} ].

(** The result of the demo scenario when port 12345 is taken and the
    allocator draws 10000. *)
Definition conflict_content : list ContentItem :=
  [ {| type := "text";
       text := "Error: Port 12345 is already in use. Consider using port 10000 instead." |} ].

Definition conflict_error : ErrorInfo :=
  {| code := -32603;
     message := "Port 12345 is already in use";
     details := Some {| suggested_port := 10000 |} |}.



(** An engine whose [run] fails for a reason other than a taken port. *)
Definition launch_error : Thrown :=
  {| error_message := "Command failed: " +:+ demo_command |}.


(* ===================================================================== *)
(** * Proofs *)
(* ===================================================================== *)

Section Runs.

Context {A B : Type}.
Implicit Types (w : World) (evs : list event).

Lemma events_since_app w w' evs :
  trace w' = evs ++ trace w -> events_since w w' = evs.
Proof.
  intros H. unfold events_since. rewrite H, length_app.
  replace (length evs + length (trace w) - length (trace w))%nat
    with (length evs) by lia.
  rewrite take_app_length. reflexivity.
Qed.

Lemma wpe_ret (a : A) w Q : Q (Return a) [] w -> wpe (ret a) w Q.
Proof. intros H. exists []. split; [reflexivity | exact H]. Qed.

Lemma wpe_throw (e : Thrown) w (Q : outcome A -> _) :
  Q (Throw e) [] w -> wpe (throw e) w Q.
Proof. intros H. exists []. split; [reflexivity | exact H]. Qed.

Lemma wpe_bind (m : M A) (k : A -> M B) w Q :
  wpe m w (fun o evs1 w1 =>
             match o with
             | Return a => wpe (k a) w1 (fun o2 evs2 w2 => Q o2 (evs2 ++ evs1) w2)
             | Throw e => Q (Throw e) evs1 w1
             end) ->
  wpe (bind m k) w Q.
Proof.
  intros (evs1 & Ht & H). unfold wpe, bind.
  destruct (m w) as [[a | e] w1]; simpl in *.
  - destruct H as (evs2 & Ht2 & H). exists (evs2 ++ evs1). split; [| exact H].
    rewrite Ht2, Ht, app_assoc. reflexivity.
  - exists evs1. split; assumption.
Qed.

Lemma wpe_attempt (m : M A) w Q :
  wpe m w (fun o evs w1 =>
             Q (Return match o with Return a => inr a | Throw e => inl e end)
               evs w1) ->
  wpe (attempt m) w Q.
Proof.
  intros (evs & Ht & H). unfold wpe, attempt.
  destruct (m w) as [[a | e] w1]; simpl in *; exists evs; split; assumption.
Qed.

Lemma wpe_try_catch (m : M A) (handler : Thrown -> M A) w Q :
  wpe m w (fun o evs1 w1 =>
             match o with
             | Return a => Q (Return a) evs1 w1
             | Throw e =>
                 wpe (handler e) w1 (fun o2 evs2 w2 => Q o2 (evs2 ++ evs1) w2)
             end) ->
  wpe (try_catch m handler) w Q.
Proof.
  intros (evs1 & Ht & H). unfold wpe, try_catch.
  destruct (m w) as [[a | e] w1]; simpl in *.
  - exists evs1. split; assumption.
  - destruct H as (evs2 & Ht2 & H). exists (evs2 ++ evs1). split; [| exact H].
    rewrite Ht2, Ht, app_assoc. reflexivity.
Qed.

Lemma wpe_conseq (m : M A) w (Q Q' : outcome A -> list event -> World -> Prop) :
  wpe m w Q -> (forall o evs w', Q o evs w' -> Q' o evs w') -> wpe m w Q'.
Proof. intros (evs & Ht & H) HQ. exists evs. split; [exact Ht | apply HQ, H]. Qed.

(** From [wpe] to a statement about [events_since]. *)
Lemma wpe_run (m : M A) w Q :
  wpe m w Q -> Q (fst (m w)) (events_since w (snd (m w))) (snd (m w)).
Proof.
  intros (evs & Ht & H). rewrite (events_since_app _ _ _ Ht). exact H.
Qed.

End Runs.

Section Steps.

Variable env : Env.
Variable plat : Platform.
Implicit Types (w : World) (evs : list event).

Lemma wpe_execAsync site cmd w Q :
  (forall reply,
      Q (match reply with inl e => Throw e | inr out => Return out end)
        [EvExec site cmd reply] (log_event (EvExec site cmd reply) w)) ->
  wpe (execAsync env site cmd) w Q.
Proof.
  intros H. exists [EvExec site cmd (exec_reply env (trace w) cmd)].
  split; [reflexivity | apply H].
Qed.

Lemma wpe_fs_access path w Q :
  (forall reply,
      Q (match reply with Some e => Throw e | None => Return tt end)
        [EvAccess path reply] (log_event (EvAccess path reply) w)) ->
  wpe (fs_access env path) w Q.
Proof.
  intros H. exists [EvAccess path (access_reply env (trace w) path)].
  split; [reflexivity | apply H].
Qed.

Lemma wpe_fs_mkdir path w Q :
  (forall reply,
      Q (match reply with Some e => Throw e | None => Return tt end)
        [EvMkdir path reply] (log_event (EvMkdir path reply) w)) ->
  wpe (fs_mkdir env path) w Q.
Proof.
  intros H. exists [EvMkdir path (mkdir_reply env (trace w) path)].
  split; [reflexivity | apply H].
Qed.

Lemma wpe_fs_writeFile path data w Q :
  (forall e, Q (Throw e) [EvWriteFile path data (Some e)]
               (log_event (EvWriteFile path data (Some e)) w)) ->
  Q (Return tt) [EvWriteFile path data None]
    (log_event (EvWriteFile path data None)
               (set_files (<[path := data]> (files w)) w)) ->
  wpe (fs_writeFile env path data) w Q.
Proof.
  intros Hfail Hok. unfold wpe, fs_writeFile.
  destruct (writeFile_reply env (trace w) path data) as [e |]; simpl.
  - exists [EvWriteFile path data (Some e)]. split; [reflexivity | apply Hfail].
  - exists [EvWriteFile path data None]. split; [reflexivity | apply Hok].
Qed.

Lemma wpe_fs_unlink path w Q :
  (forall e, Q (Throw e) [EvUnlink path (Some e)]
               (log_event (EvUnlink path (Some e)) w)) ->
  Q (Return tt) [EvUnlink path None]
    (log_event (EvUnlink path None) (set_files (delete path (files w)) w)) ->
  wpe (fs_unlink env path) w Q.
Proof.
  intros Hfail Hok. unfold wpe, fs_unlink.
  destruct (unlink_reply env (trace w) path) as [e |]; simpl.
  - exists [EvUnlink path (Some e)]. split; [reflexivity | apply Hfail].
  - exists [EvUnlink path None]. split; [reflexivity | apply Hok].
Qed.

Lemma wpe_net_listen site port host w Q :
  (forall reply, 0 <= port <= 65535 ->
      Q (Return reply) [EvListen site port host reply]
        (log_event (EvListen site port host reply) w)) ->
  (~ 0 <= port <= 65535 ->
   Q (Throw {| error_message := bad_port_message plat port |}) [] w) ->
  wpe (net_listen env plat site port host) w Q.
Proof.
  intros Hok Hbad. unfold wpe, net_listen.
  destruct ((0 <=? port) && (port <=? 65535)) eqn:Hrange; simpl.
  - exists [EvListen site port host (listen_reply env (trace w) port host)].
    split; [reflexivity |]. apply Hok. lia.
  - exists []. split; [reflexivity |]. apply Hbad. lia.
Qed.

Lemma wpe_Math_random w Q :
  (forall drawn, 0 <= drawn < random_denominator * random_exponents ->
      Q (Return drawn) [EvRandom drawn] (log_event (EvRandom drawn) w)) ->
  wpe (Math_random env) w Q.
Proof.
  intros H.
  exists [EvRandom (random_reply env (trace w)
                      mod (random_denominator * random_exponents))].
  split; [reflexivity |]. apply H.
  apply Z.mod_pos_bound. reflexivity.
Qed.

Lemma wpe_uuidv4 w Q :
  (forall u, Q (Return u) [EvUuid u] (log_event (EvUuid u) w)) ->
  wpe (uuidv4 env) w Q.
Proof.
  intros H. exists [EvUuid (uuid_reply env (trace w))].
  split; [reflexivity | apply H].
Qed.

Lemma wpe_Date_toISOString w Q :
  (forall now, Q (Return now) [EvClock now] (log_event (EvClock now) w)) ->
  wpe (Date_toISOString env) w Q.
Proof.
  intros H. exists [EvClock (clock_reply env (trace w))].
  split; [reflexivity | apply H].
Qed.

Lemma wpe_setTimeout ms w Q :
  Q (Return tt) [EvSleep ms] (log_event (EvSleep ms) w) ->
  wpe (setTimeout ms) w Q.
Proof. intros H. exists [EvSleep ms]. split; [reflexivity | apply H]. Qed.

Lemma wpe_console_error line w Q :
  Q (Return tt) [EvLog line] (log_event (EvLog line) w) ->
  wpe (console_error line) w Q.
Proof. intros H. exists [EvLog line]. split; [reflexivity | apply H]. Qed.

Lemma wpe_read_detectedRuntime w Q :
  Q (Return (detectedRuntime w)) [] w -> wpe read_detectedRuntime w Q.
Proof. intros H. exists []. split; [reflexivity | apply H]. Qed.

Lemma wpe_write_detectedRuntime r w Q :
  Q (Return tt) [] (set_detectedRuntime r w) -> wpe (write_detectedRuntime r) w Q.
Proof. intros H. exists []. split; [reflexivity | apply H]. Qed.

End Steps.

Section Allocator.

Variable env : Env.
Variable plat : Platform.
Implicit Types (w : World) (evs : list event).

Lemma wpe_checkPortAvailability site port w Q :
  (forall reply, 0 <= port <= 65535 ->
      Q (Return (negb (is_busy reply))) [EvListen site port "0.0.0.0" reply]
        (log_event (EvListen site port "0.0.0.0" reply) w)) ->
  (~ 0 <= port <= 65535 ->
   Q (Throw {| error_message := bad_port_message plat port |}) [] w) ->
  wpe (checkPortAvailability env plat site port) w Q.
Proof.
  intros Hok Hbad. unfold checkPortAvailability.
  apply wpe_bind, wpe_net_listen.
  - intros reply Hrange. specialize (Hok reply Hrange).
    destruct reply as [| code]; simpl in *.
    + apply wpe_ret. exact Hok.
    + destruct (String.eqb code "EADDRINUSE"); apply wpe_ret; exact Hok.
  - exact Hbad.
Qed.

(** Rounding moves an integer below 2^69 by at most 2^15. *)
Lemma round_to_double_near n :
  0 <= n < 2 ^ 69 -> 0 <= round_to_double n <= n + 2 ^ 15.
Proof.
  intros [Hlo Hhi]. unfold round_to_double.
  destruct (Z.ltb_spec n (2 ^ 53)) as [Hsmall | Hlarge]; [lia |].
  assert (Hpos : 0 < n) by lia.
  assert (Hlog : 53 <= Z.log2 n < 69).
  { split; [apply Z.log2_le_pow2; lia | apply Z.log2_lt_pow2; lia]. }
  set (e := Z.log2 n - 52) in *.
  assert (He : 1 <= e <= 16) by (unfold e; lia).
  assert (Hhalf : 0 < 2 ^ (e - 1) <= 2 ^ 15).
  { split; [apply Z.pow_pos_nonneg; lia | apply Z.pow_le_mono_r; lia]. }
  assert (Hdouble : 2 ^ e = 2 * 2 ^ (e - 1)).
  { replace e with (Z.succ (e - 1)) at 1 by lia. apply Z.pow_succ_r. lia. }
  pose proof (Z.div_mod n (2 ^ e) ltac:(lia)) as Hdiv.
  pose proof (Z.mod_pos_bound n (2 ^ e) ltac:(lia)) as Hmod.
  assert (Hq : 0 <= n / 2 ^ e) by (apply Z.div_pos; lia).
  set (q := n / 2 ^ e) in *. set (r := n mod 2 ^ e) in *.
  set (half := 2 ^ (e - 1)) in *. set (unit := 2 ^ e) in *.
  destruct ((r <? half) || ((r =? half) && Z.even q)) eqn:Hdown.
  - nia.
  - apply orb_false_iff in Hdown as [Hr _]. apply Z.ltb_ge in Hr. nia.
Qed.

Lemma candidate_port_range drawn :
  0 <= drawn -> minPort <= candidate_port drawn <= maxPort.
Proof.
  intros Hdrawn.
  unfold candidate_port, significand, exponent, minPort, maxPort,
    random_denominator.
  pose proof (Z.mod_pos_bound drawn (2 ^ 53) ltac:(lia)) as Hs.
  set (s := drawn mod 2 ^ 53) in *.
  assert (Hk : 0 <= drawn / 2 ^ 53) by (apply Z.div_pos; lia).
  set (k := 53 + drawn / 2 ^ 53).
  assert (Hpow : 2 ^ 53 <= 2 ^ k) by (apply Z.pow_le_mono_r; unfold k; lia).
  pose proof (round_to_double_near (s * (65535 - 10000 + 1)) ltac:(lia)) as Hr.
  set (rounded := round_to_double (s * (65535 - 10000 + 1))) in *.
  assert (0 <= rounded / 2 ^ k) by (apply Z.div_pos; lia).
  assert (rounded / 2 ^ k < 55536) by (apply Z.div_lt_upper_bound; lia).
  lia.
Qed.

Lemma probe_count_app evs1 evs2 :
  probe_count (evs1 ++ evs2) = (probe_count evs1 + probe_count evs2)%nat.
Proof. unfold probe_count. rewrite List.filter_app, length_app. reflexivity. Qed.

Lemma getRandomPort_from_spec attempts w :
  wpe (getRandomPort_from env plat attempts) w
      (fun o evs w' =>
         files w' = files w /\ detectedRuntime w' = detectedRuntime w /\
         allocation attempts o evs).
Proof.
  revert w. induction attempts as [| fewer IH]; intros w; simpl.
  - apply wpe_throw. repeat split. constructor.
  - apply wpe_bind, wpe_Math_random. intros drawn Hdrawn.
    pose proof (candidate_port_range drawn (proj1 Hdrawn)) as Hport.
    apply wpe_bind, wpe_checkPortAvailability.
    + intros reply _. destruct (is_busy reply) eqn:Hbusy; simpl negb; cbv iota.
      * eapply wpe_conseq; [apply IH |].
        intros o evs w' (Hf & Hc & Hall & Ho). rewrite <- app_assoc.
        repeat split; try assumption.
        -- apply Forall_app. split; [exact Hall |]. repeat constructor.
        -- destruct o as [port | e].
           ++ destruct Ho as (Hr & Hn & reply' & rest & -> & Hfree).
              split; [exact Hr |]. split.
              ** rewrite probe_count_app. unfold probe_count in *. simpl in *. lia.
              ** exists reply', (rest ++ [EvListen Allocator (candidate_port drawn)
                                                 "0.0.0.0" reply] ++ [EvRandom drawn]).
                 split; [reflexivity | exact Hfree].
           ++ destruct Ho as (Hm & Hn & Hb). split; [exact Hm |]. split.
              ** rewrite probe_count_app, Hn. unfold probe_count. simpl. lia.
              ** rewrite forallb_app, Hb. simpl. rewrite Hbusy. reflexivity.
      * apply wpe_ret. repeat split.
        -- repeat constructor.
        -- apply Hport.
        -- apply Hport.
        -- unfold probe_count. simpl. lia.
        -- exists reply, [EvRandom drawn]. split; [reflexivity | exact Hbusy].
    + intros Hbad. exfalso. apply Hbad. unfold minPort, maxPort in Hport. lia.
Qed.

Lemma wpe_getRandomPort w Q :
  (forall o evs w',
      files w' = files w -> detectedRuntime w' = detectedRuntime w ->
      allocation maxAttempts o evs -> Q o evs w') ->
  wpe (getRandomPort env plat) w Q.
Proof.
  intros H. eapply wpe_conseq; [apply getRandomPort_from_spec |].
  intros o evs w' (Hf & Hc & Ha). apply H; assumption.
Qed.

End Allocator.

(** One step of symbolic execution of a run. *)
Ltac wpe_step :=
  lazymatch goal with
  | |- wpe (bind _ _) _ _ => apply wpe_bind
  | |- wpe (attempt _) _ _ => apply wpe_attempt
  | |- wpe (try_catch _ _) _ _ => apply wpe_try_catch
  | |- wpe (ret _) _ _ => apply wpe_ret
  | |- wpe (throw _) _ _ => apply wpe_throw
  | |- wpe (execAsync _ _ _) _ _ => apply wpe_execAsync; intros [?error | ?stdout]
  | |- wpe (fs_access _ _) _ _ => apply wpe_fs_access; intros [?error |]
  | |- wpe (fs_mkdir _ _) _ _ => apply wpe_fs_mkdir; intros [?error |]
  | |- wpe (fs_writeFile _ _ _) _ _ => apply wpe_fs_writeFile; [intros ?error |]
  | |- wpe (fs_unlink _ _) _ _ => apply wpe_fs_unlink; [intros ?error |]
  | |- wpe (checkPortAvailability _ _ _ _) _ _ =>
      apply wpe_checkPortAvailability; [intros ?reply ?Hrange | intros ?Hbad]
  | |- wpe (getRandomPort _ _) _ _ =>
      apply wpe_getRandomPort; intros [?port | ?error] ?evs ?w' ?Hfiles ?Hcache ?Halloc
  | |- wpe (uuidv4 _) _ _ => apply wpe_uuidv4; intros ?uuid
  | |- wpe (Date_toISOString _) _ _ => apply wpe_Date_toISOString; intros ?now
  | |- wpe (setTimeout _) _ _ => apply wpe_setTimeout
  | |- wpe (console_error _) _ _ => apply wpe_console_error
  | |- wpe read_detectedRuntime _ _ => apply wpe_read_detectedRuntime
  | |- wpe (write_detectedRuntime _) _ _ => apply wpe_write_detectedRuntime
  | |- wpe (let x := ?v in @?body x) ?w ?Q =>
      let y := fresh x in
      pose (y := v); change (wpe (body y) w Q)
  | |- wpe (match ?x with _ => _ end) _ _ => destruct x eqn:?
  end; cbv beta iota.

Section Detection.

Variable env : Env.
Variable plat : Platform.
Implicit Types (w : World) (evs : list event).

Lemma wpe_detectContainerRuntime w Q :
  (forall o evs w',
      files w' = files w ->
      Forall (fun ev => detection_event ev = true) evs -> Q o evs w') ->
  wpe (detectContainerRuntime env plat) w Q.
Proof.
  intros H.
  eapply wpe_conseq with
    (Q := fun o evs w' =>
            files w' = files w /\ Forall (fun ev => detection_event ev = true) evs);
    [| intros o evs w' [Hf He]; apply H; assumption].
  unfold detectContainerRuntime, detect_uncached, try_engine.
  repeat wpe_step;
    (split; [reflexivity | repeat (apply Forall_app; split); repeat constructor]).
Qed.

End Detection.

Ltac deploy_step :=
  lazymatch goal with
  | |- wpe (detectContainerRuntime _ _) _ _ =>
      apply wpe_detectContainerRuntime;
      intros [?runtime | ?error] ?evs ?w' ?Hfiles ?Hdetect
  | |- wpe (deploy_resolve _ _ _ _ _) _ _ => unfold deploy_resolve
  | |- wpe (deploy_persist _ _ _ _ _ _ _ _ _) _ _ => unfold deploy_persist
  | |- wpe (deploy_launch _ _ _ _ _ _ _ _ _ _ _ _ _ _) _ _ => unfold deploy_launch
  | |- wpe (deployVSCodeInstance _ _ _) _ _ => unfold deployVSCodeInstance
  | _ => wpe_step
  end; cbv beta iota.

(** Case analysis on a membership in an explicit history. *)
Ltac in_cases H :=
  repeat lazymatch type of H with
         | In _ (_ ++ _) => apply in_app_or in H; destruct H as [H | H]
         | In _ (_ :: _) => destruct H as [H | H]
         | In _ [] => destruct H
         end.

Section Histories.

Implicit Types (ev : event) (evs : list event).

Lemma precedes_app earlier later evs1 evs2 :
  precedes earlier later evs2 -> precedes earlier later (evs1 ++ evs2).
Proof.
  intros H. induction evs1 as [| ev evs1 IH]; [exact H |].
  apply precedes_skip, IH.
Qed.

Lemma allocation_events attempts o evs :
  allocation attempts o evs -> forall ev, In ev evs -> allocator_event ev = true.
Proof. intros [H _]. exact (proj1 (List.Forall_forall _ _) H). Qed.

Lemma detection_events evs :
  Forall (fun ev => detection_event ev = true) evs ->
  forall ev, In ev evs -> detection_event ev = true.
Proof. intros H. exact (proj1 (List.Forall_forall _ _) H). Qed.

End Histories.

(** An event of the allocator or of the detector is of no other kind. *)
Ltac foreign_event H :=
  lazymatch type of H with
  | In ?ev ?l =>
      lazymatch goal with
      | Ha : allocation _ _ l |- _ =>
          apply (allocation_events _ _ _ Ha) in H
      | Hd : Forall _ l |- _ =>
          apply (detection_events _ Hd) in H
      end;
      first [ discriminate H
            | destruct ev as [[] | | | | | [] | | | | |];
              first [ discriminate H | reflexivity ] ]
  end.

(** Find the later event, then the earlier one behind it. *)
Ltac find_precedes :=
  repeat first
         [ apply precedes_here; simpl; solve [ repeat first [ left; reflexivity | right ] ]
         | apply precedes_skip
         | apply precedes_app ].


(* ===================================================================== *)
(** ** Runs that differ in the password only *)
(* ===================================================================== *)

Section SameWrites.

Context {A B C : Type}.

Lemma writes_app evs1 evs2 : writes (evs1 ++ evs2) = writes evs1 ++ writes evs2.
Proof. apply List.filter_app. Qed.

Lemma same_writes_bind (m : M A) (k1 : A -> M B) (k2 : A -> M C) w :
  wpe m w (fun o _ w1 =>
             match o with
             | Return a => same_writes w1 (k1 a w1) (k2 a w1)
             | Throw _ => True
             end) ->
  same_writes w (bind m k1 w) (bind m k2 w).
Proof.
  intros (evs & Ht & H). unfold bind.
  destruct (m w) as [[a | e] w1]; cbn [fst snd] in *.
  - destruct H as (evs1 & evs2 & H1 & H2 & Hw).
    exists (evs1 ++ evs), (evs2 ++ evs).
    rewrite H1, H2, Ht, !app_assoc, !writes_app, Hw. auto.
  - exists evs, evs. auto.
Qed.

Lemma same_writes_silent (m1 : M A) (m2 : M B) w :
  wpe m1 w silent -> wpe m2 w silent -> same_writes w (m1 w) (m2 w).
Proof.
  intros (evs1 & H1 & Hs1) (evs2 & H2 & Hs2). exists evs1, evs2.
  unfold silent in *. rewrite Hs1, Hs2. auto.
Qed.

Lemma same_writes_try_catch (m1 m2 : M A) (h1 h2 : Thrown -> M A) w :
  same_writes w (m1 w) (m2 w) ->
  (forall e w1, wpe (h1 e) w1 silent) ->
  (forall e w1, wpe (h2 e) w1 silent) ->
  same_writes w (try_catch m1 h1 w) (try_catch m2 h2 w).
Proof.
  intros (evs1 & evs2 & H1 & H2 & Hw) Hh1 Hh2. unfold try_catch.
  assert (Hside : forall (m : M A) (h : Thrown -> M A) evs,
             trace (snd (m w)) = evs ++ trace w ->
             (forall e w1, wpe (h e) w1 silent) ->
             exists evs', trace (snd match m w with
                                     | (Return a, w') => (Return a, w')
                                     | (Throw e, w') => h e w'
                                     end) = evs' ++ trace w /\
                          writes evs' = writes evs).
  { intros m h evs Ht Hh. destruct (m w) as [[a | e] w1]; cbn [snd] in *.
    - exists evs. auto.
    - destruct (Hh e w1) as (evsh & Hth & Hsh). exists (evsh ++ evs).
      unfold silent in Hsh. rewrite Hth, Ht, app_assoc, writes_app, Hsh. auto. }
  destruct (Hside m1 h1 evs1 H1 Hh1) as (evs1' & Ht1 & Hw1).
  destruct (Hside m2 h2 evs2 H2 Hh2) as (evs2' & Ht2 & Hw2).
  exists evs1', evs2'. rewrite Hw1, Hw2. auto.
Qed.

End SameWrites.

Lemma same_writes_ret {A B} (a : A) (b : B) w : same_writes w (ret a w) (ret b w).
Proof. exists [], []. auto. Qed.

Section Independence.
Variable env : Env.
Variable plat : Platform.

Lemma allocation_silent attempts o evs : allocation attempts o evs -> writes evs = [].
Proof.
  intros [H _]. induction H as [| ev evs Hev _ IH]; [reflexivity |].
  unfold writes in *. cbn [List.filter]. rewrite IH.
  destruct ev as [[] | | | | | [] | | | | |]; first [discriminate Hev | reflexivity].
Qed.

Lemma deploy_launch_silent name runtime instanceId instanceName workspacePath port
      password extensions cpuLimit memoryLimit environment configPath w :
  wpe (deploy_launch env plat name runtime instanceId instanceName workspacePath
                     port password extensions cpuLimit memoryLimit environment
                     configPath) w silent.
Proof.
  repeat deploy_step.
  all: unfold silent; rewrite ?writes_app;
    repeat match goal with
           | Ha : allocation _ _ _ |- _ => rewrite (allocation_silent _ _ _ Ha); clear Ha
           end;
    reflexivity.
Qed.

Lemma deploy_same_writes params password w :
  same_writes w (deployVSCodeInstance env plat params w)
                (deployVSCodeInstance env plat (with_password password params) w).
Proof.
  unfold deployVSCodeInstance. cbn [Params.name Params.workspace_path with_password].
  destruct (truthy_string (Params.name params)); [| apply same_writes_ret].
  destruct (truthy_string (Params.workspace_path params)); [| apply same_writes_ret].
  apply same_writes_try_catch;
    [| intros e w1; repeat deploy_step; reflexivity
     | intros e w1; repeat deploy_step; reflexivity].
  unfold deploy_resolve, deploy_persist, resolve_extensions, resolve_cpuLimit,
    resolve_memoryLimit, resolve_environment.
  cbn [Params.runtime Params.port Params.password Params.extensions
       Params.cpu_limit Params.memory_limit Params.environment with_password].
  repeat first
         [ exact I
         | apply same_writes_ret
         | apply same_writes_bind
         | progress (repeat deploy_step)
         | apply same_writes_silent; apply deploy_launch_silent
         | match goal with
           | |- same_writes _ ((match ?x with _ => _ end) _) _ => destruct x
           end ].
Qed.

Lemma resolve_password_resolved plat' password :
  resolve_password plat (resolve_password plat' password)
  = resolve_password plat' password.
Proof. destruct password; reflexivity. Qed.

(** The default password only matters as the password of the calls that
    give none. *)
Lemma default_password_as_parameter default params w :
  deployVSCodeInstance env (with_default_password default plat) params w
  = deployVSCodeInstance env plat
      (with_password
         (resolve_password (with_default_password default plat)
                           (Params.password params))
         params) w.
Proof.
  unfold deployVSCodeInstance, deploy_resolve, deploy_persist.
  cbn [with_password Params.name Params.workspace_path Params.port Params.password
       Params.extensions Params.cpu_limit Params.memory_limit Params.environment
       Params.runtime].
  rewrite resolve_password_resolved.
  reflexivity.
Qed.

End Independence.

(* ===================================================================== *)
(** ** Occurrences of a text in a concatenation *)
(* ===================================================================== *)

Lemma append_assoc (a b c : string) : (a +:+ b) +:+ c = a +:+ (b +:+ c).
Proof.
  induction a as [| x a IH]; [reflexivity |].
  change (String x ((a +:+ b) +:+ c) = String x (a +:+ (b +:+ c))).
  now rewrite IH.
Qed.

Section Occurrences.

Implicit Types (pat s x y : string) (c : ascii).

(** A text without the first character of [pat] starts no match. *)
Lemma occurrences_skip p0 pat f y :
  Js.has_char p0 f = false ->
  Js.occurrences (String p0 pat) (f +:+ y) = Js.occurrences (String p0 pat) y.
Proof.
  induction f as [| a f IH]; intros Hf; [reflexivity |].
  simpl in Hf. apply orb_false_iff in Hf as [Ha Hf].
  change (String a f +:+ y) with (String a (f +:+ y)).
  cbn [Js.occurrences String.prefix].
  destruct (ascii_dec p0 a) as [-> |].
  - rewrite Ascii.eqb_refl in Ha. discriminate Ha.
  - simpl. apply IH, Hf.
Qed.

Lemma prefix_append pat y : String.prefix pat (pat +:+ y) = true.
Proof.
  induction pat as [| a pat IH]; [destruct y; reflexivity |].
  simpl. destruct (ascii_dec a a); [exact IH | congruence].
Qed.

Lemma blank_tight_tail c pat :
  blank_tight (String c pat) = true -> blank_tight pat = true.
Proof.
  destruct pat as [| d pat]; [reflexivity |].
  cbn [blank_tight]. intros H. apply andb_true_iff in H as [_ H]. exact H.
Qed.

(** Two blanks end every attempt to match a tight text. *)
Lemma prefix_blanks pat :
  blank_tight pat = true ->
  forall s y,
    String.prefix pat (s +:+ String " " (String " " y)) = String.prefix pat s.
Proof.
  induction pat as [| c pat IH]; intros Ht s y.
  - destruct s; reflexivity.
  - destruct s as [| a s].
    + change (EmptyString +:+ String " " (String " " y))
        with (String " " (String " " y)).
      cbn [String.prefix].
      destruct (ascii_dec c " ") as [-> |]; [| reflexivity].
      destruct pat as [| d pat]; [discriminate Ht |].
      cbn [blank_tight Ascii.eqb Bool.eqb andb] in Ht.
      cbn [String.prefix].
      destruct (ascii_dec d " ") as [-> |]; [| reflexivity].
      discriminate Ht.
    + change (String a s +:+ String " " (String " " y))
        with (String a (s +:+ String " " (String " " y))).
      cbn [String.prefix].
      destruct (ascii_dec c a); [| reflexivity].
      apply IH. exact (blank_tight_tail _ _ Ht).
Qed.

Lemma occurrences_two_blanks pat x y :
  blank_tight pat = true ->
  Js.occurrences pat (x +:+ String " " (String " " y)) =
  (Js.occurrences pat x + Js.occurrences pat (String " " (String " " y)))%nat.
Proof.
  intros Ht. induction x as [| a x IH]; [reflexivity |].
  change (String a x +:+ String " " (String " " y))
    with (String a (x +:+ String " " (String " " y))).
  cbn [Js.occurrences]. rewrite IH.
  change (String a (x +:+ String " " (String " " y)))
    with (String a x +:+ String " " (String " " y)).
  rewrite (prefix_blanks pat Ht (String a x) y). cbn [Js.occurrences]. lia.
Qed.

(** The occurrences of a tight text that does not start with a blank, in
    two texts set five blanks apart: no occurrence lies across the
    blanks. *)
Lemma occurrences_blanks p0 pat x y :
  blank_tight (String p0 pat) = true ->
  Ascii.eqb p0 " " = false ->
  Js.occurrences (String p0 pat) (x +:+ blanks +:+ y) =
  (Js.occurrences (String p0 pat) x + Js.occurrences (String p0 pat) y)%nat.
Proof.
  intros Ht Hp0.
  change (x +:+ blanks +:+ y) with (x +:+ String " " (String " " ("   " +:+ y))).
  rewrite occurrences_two_blanks by exact Ht.
  change (String " " (String " " ("   " +:+ y))) with (blanks +:+ y).
  rewrite occurrences_skip; [reflexivity |].
  unfold blanks. cbn [Js.has_char]. rewrite Hp0. reflexivity.
Qed.

Lemma occurrences_join p0 pat options :
  blank_tight (String p0 pat) = true ->
  Ascii.eqb p0 " " = false ->
  Js.occurrences (String p0 pat) (Js.join blanks options) =
  fold_right (fun option n => (Js.occurrences (String p0 pat) option + n)%nat) 0%nat
             options.
Proof.
  intros Ht Hp0. induction options as [| x rest IH]; [reflexivity |].
  destruct rest as [| y rest].
  - cbn [Js.join fold_right]. lia.
  - change (Js.join blanks (x :: y :: rest))
      with (x +:+ blanks +:+ Js.join blanks (y :: rest)).
    rewrite occurrences_blanks by assumption. rewrite IH. reflexivity.
Qed.

End Occurrences.

Section Credential.

Variable plat : Platform.

Lemma DEFAULT_PASSWORD_truthy : Js.truthy (DEFAULT_PASSWORD plat) = true.
Proof.
  unfold DEFAULT_PASSWORD, Js.or_default.
  destruct (env_DEFAULT_PASSWORD plat) as [s |]; [| reflexivity].
  destruct (Js.truthy s) eqn:H; [exact H | reflexivity].
Qed.

Lemma passwordEnv_set pw :
  Js.truthy pw = true -> passwordEnv (JsStr pw) = credential_flag +:+ pw.
Proof. destruct pw; [discriminate | reflexivity]. Qed.

(** The command is its options, five blanks apart. *)
Lemma command_options runtime instanceName workspacePath port password extensions
      cpuLimit memoryLimit environment :
  buildContainerCommand runtime instanceName workspacePath port password
                        extensions cpuLimit memoryLimit environment =
  Js.join blanks
    (options_before runtime instanceName workspacePath port cpuLimit memoryLimit
                    environment
     ++ passwordEnv password :: options_after extensions).
Proof.
  unfold buildContainerCommand, options_before, options_after, blanks.
  cbn [app Js.join]. rewrite !append_assoc. reflexivity.
Qed.

Lemma flags_in_app l1 l2 : flags_in (l1 ++ l2) = (flags_in l1 + flags_in l2)%nat.
Proof.
  unfold flags_in. induction l1 as [| x l1 IH]; [reflexivity |].
  cbn [app fold_right]. rewrite IH. lia.
Qed.

(** The flags of a command are those of its options. *)
Lemma command_flags runtime instanceName workspacePath port password extensions
      cpuLimit memoryLimit environment :
  Js.occurrences credential_flag
    (buildContainerCommand runtime instanceName workspacePath port password
                           extensions cpuLimit memoryLimit environment)
  = (flags_in (options_before runtime instanceName workspacePath port cpuLimit
                              memoryLimit environment
               ++ options_after extensions)
     + Js.occurrences credential_flag (passwordEnv password))%nat.
Proof.
  rewrite command_options.
  unfold credential_flag at 1. rewrite occurrences_join by reflexivity.
  fold credential_flag.
  change (fold_right _ 0%nat ?l) with (flags_in l).
  rewrite !flags_in_app.
  change (flags_in (passwordEnv password :: options_after extensions))
    with (Js.occurrences credential_flag (passwordEnv password)
          + flags_in (options_after extensions))%nat.
  lia.
Qed.

Lemma flag_then_text s :
  Js.occurrences credential_flag (credential_flag +:+ s)
  = S (Js.occurrences credential_flag s).
Proof.
  unfold credential_flag.
  change ("-e PASSWORD=" +:+ s) with (String "-" ("e PASSWORD=" +:+ s)).
  cbn [Js.occurrences].
  change (String "-" ("e PASSWORD=" +:+ s)) with ("-e PASSWORD=" +:+ s).
  rewrite prefix_append, occurrences_skip by reflexivity. reflexivity.
Qed.

End Credential.

(** ** Truthy parameters *)

Lemma truthy_string_Some o s :
  truthy_string o = Some s -> o = Some s /\ Js.truthy s = true.
Proof.
  unfold truthy_string. destruct o as [t |]; [| discriminate].
  destruct (Js.truthy t) eqn:H; [| discriminate]. intros [= ->]. auto.
Qed.

Lemma truthy_number_Some o n : truthy_number o = Some n -> o = Some n /\ n <> 0.
Proof.
  unfold truthy_number. destruct o as [m |]; [| discriminate].
  destruct (Z.eqb_spec m 0); [discriminate |]. intros [= ->]. auto.
Qed.



(* ===================================================================== *)
(** * Properties of the orchestrator *)
(* ===================================================================== *)

(** Put a goal about [fst], [snd] and [events_since] of a run in the shape
    of [wpe_run]. *)
Ltac by_run m w :=
  cbv zeta;
  let E := fresh "E" in
  set (E := events_since w (snd (m w)));
  pattern (fst (m w)), E, (snd (m w));
  subst E; apply wpe_run.

(** Bring the history of a leaf in normal form. *)
Ltac tidy :=
  rewrite <- ?app_assoc; cbn [app];
  cbn [files detectedRuntime log_event set_files set_detectedRuntime] in *.

(** Find an event in a computed history. *)
Ltac find_event := vm_compute; repeat first [ left; reflexivity | right ].

(** Find an event in a history some parts of which are not known. *)
Ltac event_there :=
  simpl; solve [repeat first [left; reflexivity | right | apply in_or_app]].

Section Claims.

Variable env : Env.
Variable plat : Platform.
Implicit Types (w : World) (evs : list event) (params : Params.t).

(** C3. Every run of the port allocator either returns a port of
    [10000, 65535], the last probe having found it free after at most 10
    probes, or throws the exhaustion error after exactly 10 probes that
    all found their port in use. *)
Theorem allocator_bounded w :
  let run := getRandomPort env plat w in
  let evs := events_since w (snd run) in
  match fst run with
  | Return port =>
      10000 <= port <= 65535 /\
      (probe_count evs <= 10)%nat /\
      exists reply rest,
        evs = EvListen Allocator port "0.0.0.0" reply :: rest /\
        is_busy reply = false
  | Throw e =>
      error_message e = "Could not find an available port after multiple attempts" /\
      probe_count evs = 10%nat /\
      forallb probe_busy evs = true
  end.
Proof.
  cbv zeta.
  pose proof (wpe_run _ _ _ (getRandomPort_from_spec env plat maxAttempts w))
    as (_ & _ & _ & H).
  exact H.
Qed.

(** C6. The prober of a port of 0..65535 makes exactly one attempt to
    bind this port on 0.0.0.0 and changes nothing else; it answers false
    exactly when this attempt fails with EADDRINUSE, and true when it
    succeeds or fails with any other code. (For a number outside
    0..65535, which is no port, [listen] throws before any attempt.) *)
Theorem prober_fail_open site port w :
  let run := checkPortAvailability env plat site port w in
  let evs := events_since w (snd run) in
  let reply := listen_reply env (trace w) port "0.0.0.0" in
  files (snd run) = files w /\
  detectedRuntime (snd run) = detectedRuntime w /\
  (0 <= port <= 65535 ->
   evs = [EvListen site port "0.0.0.0" reply] /\
   (fst run = Return false <-> reply = BindError "EADDRINUSE") /\
   (fst run = Return true <-> reply <> BindError "EADDRINUSE")) /\
  (~ 0 <= port <= 65535 ->
   evs = [] /\ fst run = Throw {| error_message := bad_port_message plat port |}).
Proof.
  cbv zeta.
  set (reply := listen_reply env (trace w) port "0.0.0.0").
  assert (Hvalid : 0 <= port <= 65535 ->
                   checkPortAvailability env plat site port w
                   = (Return (negb (is_busy reply)),
                      log_event (EvListen site port "0.0.0.0" reply) w)).
  { intros [Hlo Hhi]. unfold checkPortAvailability, bind, net_listen.
    apply Z.leb_le in Hlo, Hhi. rewrite Hlo, Hhi. cbn [andb]. fold reply.
    destruct reply as [| code]; [reflexivity |]. cbn [is_busy].
    destruct (String.eqb code "EADDRINUSE"); reflexivity. }
  assert (Hinvalid : ~ 0 <= port <= 65535 ->
                     checkPortAvailability env plat site port w
                     = (Throw {| error_message := bad_port_message plat port |}, w)).
  { intros Hbad. unfold checkPortAvailability, bind, net_listen.
    destruct (Z.leb_spec 0 port); [destruct (Z.leb_spec port 65535) |];
      first [reflexivity | lia]. }
  assert (Hbusy : is_busy reply = true <-> reply = BindError "EADDRINUSE").
  { destruct reply as [| code]; cbn [is_busy]; [split; discriminate |].
    destruct (String.eqb_spec code "EADDRINUSE") as [-> | Hne];
      split; try reflexivity; try discriminate.
    intros [= ->]. contradiction. }
  destruct (Z.leb_spec 0 port) as [Hlo | Hlo];
    [destruct (Z.leb_spec port 65535) as [Hhi | Hhi] |].
  - rewrite (Hvalid (conj Hlo Hhi)). cbn [fst snd log_event files detectedRuntime].
    split; [reflexivity |]. split; [reflexivity |]. split; [| intros Hbad; lia].
    intros _.
    rewrite (events_since_app w _ [EvListen site port "0.0.0.0" reply])
      by reflexivity.
    split; [reflexivity |].
    destruct (is_busy reply) eqn:Hb; cbn [negb]; split; split.
    + intros _. apply Hbusy. reflexivity.
    + reflexivity.
    + discriminate.
    + intros Hne. exfalso. apply Hne, Hbusy. reflexivity.
    + discriminate.
    + intros Heq. apply Hbusy in Heq. discriminate Heq.
    + intros _ Heq. apply Hbusy in Heq. discriminate Heq.
    + reflexivity.
  - rewrite Hinvalid by lia. cbn [fst snd].
    rewrite (events_since_app w w []) by reflexivity.
    repeat split; try reflexivity; lia.
  - rewrite Hinvalid by lia. cbn [fst snd].
    rewrite (events_since_app w w []) by reflexivity.
    repeat split; try reflexivity; lia.
Qed.

(** C9. The provisioning function never throws: whatever the parameters
    and the environment, it returns a result with a content array of one
    text item that is a success descriptor or an error descriptor with
    code -32602 or -32603 and a message. *)
Theorem deploy_never_throws params w :
  exists r,
    fst (deployVSCodeInstance env plat params w) = Return r /\
    length (content_of r) = 1%nat /\
    match r with
    | Failure _ err => code err = -32602 \/ code err = -32603
    | Success _ _ => True
    end.
Proof.
  pattern (fst (deployVSCodeInstance env plat params w)).
  apply (wpe_run _ w (fun o _ _ => _ o)).
  repeat deploy_step.
  all: eexists; split; [reflexivity |]; split; simpl; auto.
Qed.


(** Follow the equations that relate the files and the cache of the
    worlds of a leaf. *)
Ltac chase :=
  repeat match goal with
         | H : files ?x = _ |- context [files ?x] => rewrite H
         | H : detectedRuntime ?x = _ |- context [detectedRuntime ?x] => rewrite H
         end.

(** C1, as the code has it. When the launch fails with a message that
    contains "port is already allocated", the record of this instance,
    written before the launch, is unlinked after it: it is gone if the
    unlink succeeds and still there if it fails (a failed unlink is only
    logged). The allocator then runs, and its outcome decides the result.
    When it returns a port (of [10000, 65535], found free by its last
    probe, the newest event of the call), the result is the error -32603
    "Port P is already allocated" with this port as the suggested port, P
    being the requested port when one was requested. When it throws,
    after ten probes that all found their port in use, the result is the
    generic error -32603 without a suggested port. *)
Theorem rollback_on_collision params w :
  let run := deployVSCodeInstance env plat params w in
  let evs := events_since w (snd run) in
  forall cmd error,
    In (EvExec Launch cmd (inl error)) evs ->
    Js.includes "port is already allocated" (error_message error) = true ->
    exists name uuid data unlinked outcome allocated earlier,
      let path :=
        record_path plat ("vscode-" +:+ name +:+ "-" +:+ String.substring 0 8 uuid) in
      Params.name params = Some name /\
      In (EvUuid uuid) evs /\
      precedes (EvWriteFile path data None) (EvExec Launch cmd (inl error)) evs /\
      precedes (EvExec Launch cmd (inl error)) (EvUnlink path unlinked) evs /\
      (unlinked = None -> files (snd run) !! path = None) /\
      (unlinked <> None -> files (snd run) !! path = Some data) /\
      allocation maxAttempts outcome allocated /\
      match outcome with
      | Return alt =>
          evs = allocated ++ earlier /\
          exists port,
            fst run =
            Return (fail_with ("Error: Port " +:+ Js.of_Z port
                               +:+ " is already allocated. Consider using port "
                               +:+ Js.of_Z alt +:+ " instead.")
                              (-32603)
                              ("Port " +:+ Js.of_Z port +:+ " is already allocated")
                              (Some {| suggested_port := alt |})) /\
            (forall requested,
                truthy_number (Params.port params) = Some requested ->
                port = requested)
      | Throw _ =>
          evs = EvLog ("Error in deployVSCodeInstance: " +:+ exhaustion_message)
                  :: allocated ++ earlier /\
          fst run =
          Return (fail_with ("Error: Failed to deploy VSCode instance: "
                             +:+ exhaustion_message)
                            (-32603)
                            ("Failed to deploy VSCode instance: "
                             +:+ exhaustion_message)
                            None)
      end /\
      In (EvUnlink path unlinked) earlier.
Proof.
  by_run (deployVSCodeInstance env plat params) w.
  repeat deploy_step.
  all: tidy; intros the_cmd the_error Hin Hmsg.
  all: in_cases Hin; try discriminate Hin; try (exfalso; foreign_event Hin).
  all: injection Hin as <- <-; try congruence.
  all: repeat match goal with
              | H : truthy_string _ = Some _ |- _ =>
                  apply truthy_string_Some in H; destruct H as [H _]
              end.
  all: do 4 eexists.
  all: match goal with
       | Ha : allocation _ ?o ?l |- _ =>
           exists o, l; eexists; cbv zeta;
           lazymatch o with
           | Throw _ =>
               let Hm := fresh "Hm" in
               pose proof Ha as (_ & Hm & _); rewrite Hm
           | _ => idtac
           end;
           solve
             [ split; [eassumption |];
               split; [event_there |];
               unfold record_path, records_dir;
               split; [find_precedes |]; split; [find_precedes |];
               split; [first [discriminate
                             | intros _; chase; apply lookup_delete_eq] |];
               split; [first [ intros Hkept; exfalso; apply Hkept; reflexivity
                             | intros _; chase; apply lookup_insert_eq ] |];
               split; [exact Ha |];
               split;
               [ split; [reflexivity |];
                 first [ reflexivity
                       | eexists; split; [reflexivity | intros; congruence] ]
               | simpl; solve [repeat first [left; reflexivity | right]] ] ]
       end.
Qed.

(** C4, as the code has it. When the probe of the requested port finds it
    in use, the allocator runs next, and its outcome decides the result.
    When it returns a port (of [10000, 65535], found free by its last
    probe, the newest event of the call), the result is the error -32603
    "Port P is already in use" with this port as the suggested port. When
    it throws, after ten probes that all found their port in use, the
    result is the generic error -32603 without a suggested port. In both
    cases the files are untouched, and no event of the call touches the
    records directory or starts or queries a container. *)
Theorem conflict_before_launch params w :
  let run := deployVSCodeInstance env plat params w in
  let evs := events_since w (snd run) in
  forall requested host probe,
    In (EvListen RequestedPort requested host probe) evs ->
    is_busy probe = true ->
    (exists outcome allocated earlier,
        allocation maxAttempts outcome allocated /\
        match outcome with
        | Return alt =>
            evs = allocated ++ EvListen RequestedPort requested host probe :: earlier /\
            fst run =
            Return (fail_with ("Error: Port " +:+ Js.of_Z requested
                               +:+ " is already in use. Consider using port "
                               +:+ Js.of_Z alt +:+ " instead.")
                              (-32603)
                              ("Port " +:+ Js.of_Z requested +:+ " is already in use")
                              (Some {| suggested_port := alt |}))
        | Throw _ =>
            evs = EvLog ("Error in deployVSCodeInstance: " +:+ exhaustion_message)
                    :: allocated
                    ++ EvListen RequestedPort requested host probe :: earlier /\
            fst run =
            Return (fail_with ("Error: Failed to deploy VSCode instance: "
                               +:+ exhaustion_message)
                              (-32603)
                              ("Failed to deploy VSCode instance: "
                               +:+ exhaustion_message)
                              None)
        end) /\
    files (snd run) = files w /\
    forall ev, In ev evs -> side_effect ev = false.
Proof.
  by_run (deployVSCodeInstance env plat params) w.
  repeat deploy_step.
  all: tidy; intros the_port the_host the_probe Hin Hbusy.
  all: in_cases Hin; try discriminate Hin; try (exfalso; foreign_event Hin).
  all: injection Hin as <- <- <-.
  all: try (rewrite Hbusy in *; discriminate).
  all: (split; [| split; [chase; reflexivity |]]).
  all: try (intros ev Hev; in_cases Hev; try (subst ev; reflexivity);
            foreign_event Hev).
  all: match goal with
       | Ha : allocation _ (Throw ?e) ?l |- _ =>
           pose proof (proj1 (proj2 Ha)) as Hexhausted;
           rewrite Hexhausted;
           exists (Throw e), l
       | Ha : allocation _ (Return ?p) ?l |- _ =>
           exists (Return p), l
       end.
  all: eexists; (split; [eassumption |]); cbv iota; split; reflexivity.
Qed.

(** C2, as the code has it. A runtime override is used as it is, without
    any probe of an engine, for this call only: a successful call reports
    it as its runtime, and the cache is left as it was, so that a later
    detection still returns the value cached before, if there was one. *)
Theorem override_bypasses_cache params w override :
  truthy_string (Params.runtime params) = Some override ->
  let run := deployVSCodeInstance env plat params w in
  let evs := events_since w (snd run) in
  detectedRuntime (snd run) = detectedRuntime w /\
  (forall ev, In ev evs -> is_detect_probe ev = false) /\
  (forall content instance,
      fst run = Return (Success content instance) ->
      Deployed.runtime instance = override) /\
  (forall cached,
      detectedRuntime w = Some cached -> Js.truthy cached = true ->
      fst (detectContainerRuntime env plat (snd run)) = Return cached).
Proof.
  intros Hoverride.
  cbv zeta.
  assert (detectedRuntime (snd (deployVSCodeInstance env plat params w))
          = detectedRuntime w /\
          (forall ev,
              In ev (events_since w (snd (deployVSCodeInstance env plat params w))) ->
              is_detect_probe ev = false) /\
          (forall content instance,
              fst (deployVSCodeInstance env plat params w)
              = Return (Success content instance) ->
              Deployed.runtime instance = override)) as (Hcache & Hevs & Hruntime).
  { by_run (deployVSCodeInstance env plat params) w.
    unfold deployVSCodeInstance, deploy_resolve. rewrite Hoverride.
    repeat deploy_step.
    all: tidy.
    all: (split; [chase; reflexivity |]).
    all: (split;
          [ intros ev Hev; in_cases Hev; try (subst ev; reflexivity);
            foreign_event Hev
          | intros content instance [= <- <-]; reflexivity ]). }
  repeat split; try assumption.
  intros cached Hcached Htruthy.
  unfold detectContainerRuntime, bind, read_detectedRuntime.
  rewrite Hcache, Hcached, Htruthy. reflexivity.
Qed.

Lemma truthy_false_empty s : Js.truthy s = false -> s = EmptyString.
Proof. destruct s; [reflexivity | discriminate]. Qed.

(** C8. For the parameters name "demo", workspace "/tmp/ws", port 12345
    and the empty password: when the launch command succeeds and the
    status query answers with a status that is not blank, the call
    returns a success descriptor, passwordless, with port 12345 and url
    "http://localhost:12345". *)
Theorem demo_scenario params w :
  Params.name params = Some "demo" ->
  Params.workspace_path params = Some "/tmp/ws" ->
  Params.port params = Some 12345 ->
  Params.password params = JsStr EmptyString ->
  let run := deployVSCodeInstance env plat params w in
  let evs := events_since w (snd run) in
  forall cmd out query status,
    In (EvExec Launch cmd (inr out)) evs ->
    In (EvExec StatusQuery query (inr status)) evs ->
    Js.trim status <> EmptyString ->
    exists content instance,
      fst run = Return (Success content instance) /\
      Deployed.passwordless instance = true /\
      Deployed.port instance = 12345 /\
      Deployed.url instance = "http://localhost:12345".
Proof.
  intros Hname Hworkspace Hport Hpassword.
  by_run (deployVSCodeInstance env plat params) w.
  unfold deployVSCodeInstance, deploy_resolve.
  rewrite Hname, Hworkspace, Hport.
  cbn [truthy_string truthy_number Js.truthy Z.eqb].
  repeat deploy_step.
  all: tidy; intros the_cmd the_out the_query the_status Hlaunch Hstatus Hblank.
  all: in_cases Hlaunch; try discriminate Hlaunch;
    try (exfalso; foreign_event Hlaunch).
  all: in_cases Hstatus; try discriminate Hstatus;
    try (exfalso; foreign_event Hstatus).
  all: injection Hstatus as <- <-.
  all: try (exfalso; apply Hblank, truthy_false_empty;
            match goal with
            | H : negb (Js.truthy _) = true |- _ =>
                apply negb_true_iff in H; exact H
            end).
  all: do 2 eexists; split; [reflexivity |].
  all: cbn [Deployed.passwordless Deployed.port Deployed.url].
  all: rewrite Hpassword; repeat split.
Qed.

(** C10, as the code has it. Whatever is written is the record file of
    the instance, [<instance name>.json] in the records directory, and
    its content is the serialization of an object with exactly the fields
    id, name, instance_name, workspace_path, port, extensions, cpu_limit,
    memory_limit, environment and created_at, in this order: the first 8
    characters of the uuid drawn in this call, the name parameter, the
    instance name made of both, the resolved workspace path, the port
    that a probe of this call did not find in use (the requested one when
    a port was requested), the extensions, the limits and the environment
    as given or by default, and the time read in this call. Nothing in it
    comes from the resolved password: the same call with any other
    password and any other default password writes the same files with
    the same contents. The environment mapping is persisted as it is
    given. *)
Theorem record_without_credential params w :
  let run := deployVSCodeInstance env plat params w in
  let evs := events_since w (snd run) in
  (forall path data reply,
      In (EvWriteFile path data reply) evs ->
      exists name workspace uuid site port probe now,
        let instanceId := String.substring 0 8 uuid in
        let instanceName := "vscode-" +:+ name +:+ "-" +:+ instanceId in
        Params.name params = Some name /\
        Params.workspace_path params = Some workspace /\
        path = record_path plat instanceName /\
        data =
        Json.stringify
          (Json.JObject
             [ ("id", Json.JString instanceId);
               ("name", Json.JString name);
               ("instance_name", Json.JString instanceName);
               ("workspace_path", Json.JString (path_resolve plat workspace));
               ("port", Json.JNumber port);
               ("extensions",
                 Json.JArray (List.map Json.JString (resolve_extensions plat params)));
               ("cpu_limit", scalar_json (resolve_cpuLimit plat params));
               ("memory_limit", Json.JString (resolve_memoryLimit plat params));
               ("environment",
                 Json.JObject
                   (List.map (fun kv => (fst kv, Json.JString (snd kv)))
                             (resolve_environment params)));
               ("created_at", Json.JString now) ]) /\
        In (EvUuid uuid) evs /\
        In (EvClock now) evs /\
        In (EvListen site port "0.0.0.0" probe) evs /\
        is_busy probe = false /\
        (forall requested,
            truthy_number (Params.port params) = Some requested ->
            port = requested /\ site = RequestedPort)) /\
  (forall password default,
      writes (events_since w
                (snd (deployVSCodeInstance env (with_default_password default plat)
                        (with_password password params) w)))
      = writes evs).
Proof.
  cbv zeta. split.
  - by_run (deployVSCodeInstance env plat params) w.
    repeat deploy_step.
    all: tidy; intros the_path the_data the_reply Hin.
    all: in_cases Hin; try discriminate Hin; try (exfalso; foreign_event Hin).
    all: injection Hin as <- <- <-.
    all: repeat match goal with
                | H : truthy_string _ = Some _ |- _ =>
                    apply truthy_string_Some in H; destruct H as [H _]
                | H : negb (negb (is_busy ?r)) = false |- _ =>
                    destruct (is_busy r) eqn:?; [discriminate H | clear H]
                | H : allocation _ (Return _) _ |- _ =>
                    destruct H as (_ & ? & _ & ? & ? & -> & ?)
                end.
    all: do 7 eexists; cbv zeta.
    all: (split; [eassumption |]); (split; [eassumption |]).
    all: (split; [reflexivity |]); (split; [reflexivity |]).
    all: (split; [event_there |]); (split; [event_there |]).
    all: (split; [event_there |]).
    all: (split; [eassumption |]).
    all: intros requested Hrequested;
      first [ discriminate Hrequested
            | injection Hrequested as <-; split; reflexivity ].
  - intros password default.
    rewrite default_password_as_parameter.
    cbn [with_password Params.password].
    match goal with
    | |- context [with_password ?pw (with_password _ params)] =>
        change (with_password pw (with_password password params))
          with (with_password pw params);
        destruct (deploy_same_writes env plat params pw w)
          as (evs1 & evs2 & H1 & H2 & Hw)
    end.
    rewrite (events_since_app _ _ _ H1), (events_since_app _ _ _ H2).
    symmetry. exact Hw.
Qed.

End Claims.

(** C5, as the code has it. The credential flags of the command are
    those that its other options carry (the engine, name, port, volume,
    limit, environment and extension options, as they are rendered) and
    those of its password option. For the empty password this option is
    empty: the command contains just the flags carried elsewhere, so none
    when no other option carries one. For an omitted password the command
    is the same with the one flag of the default password, followed by
    blanks, at the place of the password option: exactly one flag more
    (and those written in the default password itself, if any). *)
Theorem credential_flag_of_command plat runtime instanceName workspacePath port
        extensions cpuLimit memoryLimit environment :
  let command password :=
    buildContainerCommand runtime instanceName workspacePath port
                          (resolve_password plat password)
                          extensions cpuLimit memoryLimit environment in
  let elsewhere :=
    flags_in (options_before runtime instanceName workspacePath port cpuLimit
                             memoryLimit environment
              ++ options_after extensions) in
  Js.occurrences credential_flag (command (JsStr EmptyString)) = elsewhere /\
  Js.occurrences credential_flag (command JsUndefined)
  = (elsewhere + 1 + Js.occurrences credential_flag (DEFAULT_PASSWORD plat))%nat /\
  exists front back,
    command (JsStr EmptyString) = front +:+ back /\
    command JsUndefined
    = front +:+ credential_flag +:+ DEFAULT_PASSWORD plat +:+ back /\
    String.prefix blanks back = true.
Proof.
  cbv zeta.
  assert (Hdefault : passwordEnv (resolve_password plat JsUndefined)
                     = credential_flag +:+ DEFAULT_PASSWORD plat)
    by (apply passwordEnv_set, DEFAULT_PASSWORD_truthy).
  split; [| split].
  - rewrite command_flags. cbn [resolve_password passwordEnv Js.occurrences]. lia.
  - rewrite command_flags, Hdefault, flag_then_text. lia.
  - exists (Js.join blanks
              (options_before runtime instanceName workspacePath port cpuLimit
                              memoryLimit environment) +:+ blanks),
           (blanks +:+ Js.join blanks (options_after extensions)).
    split; [| split].
    + unfold buildContainerCommand, options_before, options_after, blanks.
      cbn [resolve_password passwordEnv Js.join]. rewrite !append_assoc. reflexivity.
    + unfold buildContainerCommand. rewrite Hdefault.
      unfold options_before, options_after, blanks.
      cbn [Js.join]. rewrite !append_assoc. reflexivity.
    + reflexivity.
Qed.

(* ===================================================================== *)
(** * Counterexamples and instances *)
(* ===================================================================== *)

(** C1, as it is written, fails. The engine reports port 12345 allocated,
    the allocator then draws 12345 again and the probe finds it free, as it
    did before the launch: the suggested port is the requested one. *)
Lemma rollback_as_stated_fails :
  ~ rollback_as_stated (colliding_env 12345 true) plain_platform
      (with_runtime "docker" demo_params) fresh_world.
Proof.
  intros H.
  assert (Hprobe : In (EvListen RequestedPort 12345 "0.0.0.0" Listening)
                      (events_since fresh_world
                         (snd (deployVSCodeInstance (colliding_env 12345 true)
                                 plain_platform (with_runtime "docker" demo_params)
                                 fresh_world)))) by find_event.
  assert (Hlaunch : In (EvExec Launch demo_command (inl collision_error))
                       (events_since fresh_world
                          (snd (deployVSCodeInstance (colliding_env 12345 true)
                                  plain_platform (with_runtime "docker" demo_params)
                                  fresh_world)))) by find_event.
  destruct (H 12345 "0.0.0.0" Listening demo_command collision_error
              eq_refl Hprobe eq_refl Hlaunch eq_refl)
    as (_ & content & err & alt & Hrun & Hdetails & Hdiffers).
  vm_compute in Hrun. injection Hrun as <- <-.
  injection Hdetails as <-. apply Hdiffers. reflexivity.
Qed.

(** In the same run the unlink fails, and the record file is still there. *)
Example rollback_may_leave_record :
  files (snd (deployVSCodeInstance (colliding_env 12345 true) plain_platform
                (with_runtime "docker" demo_params) fresh_world))
  !! demo_record_path = Some demo_record.
Proof. vm_compute. reflexivity. Qed.

(** C2, as it is written, fails: after a call with the override "podman"
    the cache is still empty. *)
Lemma override_cached_as_stated_fails :
  ~ override_cached_as_stated (friendly_env 10000) plain_platform
      (with_runtime "podman" demo_params) fresh_world.
Proof.
  intros H. destruct (H "podman" eq_refl) as [Hcache _].
  vm_compute in Hcache. discriminate Hcache.
Qed.

(** ... and a later detection finds Docker. *)
Example detection_after_override :
  fst (detectContainerRuntime (friendly_env 10000) plain_platform
         (snd (deployVSCodeInstance (friendly_env 10000) plain_platform
                 (with_runtime "podman" demo_params) fresh_world)))
  = Return "docker".
Proof. vm_compute. reflexivity. Qed.

(** C4, as it is written, fails: when every port is in use the allocator is
    exhausted and the error carries no suggested port. *)
Lemma conflict_as_stated_fails :
  ~ conflict_as_stated (crowded_env (fun _ => true) 10000) plain_platform
      demo_params fresh_world.
Proof.
  intros H.
  assert (Hprobe : In (EvListen RequestedPort 12345 "0.0.0.0" (BindError "EADDRINUSE"))
                      (events_since fresh_world
                         (snd (deployVSCodeInstance (crowded_env (fun _ => true) 10000)
                                 plain_platform demo_params fresh_world))))
    by find_event.
  destruct (H 12345 "0.0.0.0" (BindError "EADDRINUSE") Hprobe eq_refl)
    as [(content & err & alt & Hrun & Hdetails) _].
  vm_compute in Hrun. injection Hrun as <- <-. discriminate Hdetails.
Qed.

(** C5, as it is written, fails: an environment entry named PASSWORD puts a
    credential flag in the command of a passwordless instance. *)
Lemma passwordless_as_stated_fails :
  ~ passwordless_as_stated plain_platform "docker" "vscode-demo-0f8fad5b"
      "/tmp/ws" 12345 ["ms-python.python"] (Text "1.0") "2g"
      [("PASSWORD", "hunter2")].
Proof. intros [H _]. vm_compute in H. discriminate H. Qed.

(** C10, as it is written, fails: an environment entry named PASSWORD is
    the credential of the instance that is launched, and the record holds
    it in clear. *)
Lemma record_as_stated_fails :
  ~ record_as_stated (friendly_env 10000) plain_platform
      (with_environment (Some [("PASSWORD", "hunter2")]) demo_params) fresh_world.
Proof.
  intros H.
  set (run := deployVSCodeInstance (friendly_env 10000) plain_platform
                (with_environment (Some [("PASSWORD", "hunter2")]) demo_params)
                fresh_world) in *.
  assert (exists path data cmd out,
             In (EvWriteFile path data None) (events_since fresh_world (snd run)) /\
             In (EvExec Launch cmd (inr out)) (events_since fresh_world (snd run)) /\
             credential_of cmd "hunter2" /\
             Js.includes "hunter2" data = true)
    as (path & data & cmd & out & Hwrite & Hlaunch & Hcred & Hin).
  { vm_compute. do 4 eexists.
    split; [repeat first [left; reflexivity | right] |].
    split; [repeat first [left; reflexivity | right] |].
    split; [split; [discriminate | split; reflexivity] | reflexivity]. }
  rewrite (H path data None cmd (inr out) "hunter2" Hwrite Hlaunch Hcred) in Hin.
  discriminate Hin.
Qed.

Lemma rollback_on_collision_witness :
  let run := deployVSCodeInstance (colliding_env 20000 false) plain_platform
                                  (with_runtime "docker" demo_params) fresh_world in
  let evs := events_since fresh_world (snd run) in
  In (EvExec Launch demo_command (inl collision_error)) evs /\
  Js.includes "port is already allocated" (error_message collision_error) = true /\
  exists name uuid data unlinked outcome allocated earlier,
    let path :=
      record_path plain_platform
                  ("vscode-" +:+ name +:+ "-" +:+ String.substring 0 8 uuid) in
    Params.name (with_runtime "docker" demo_params) = Some name /\
    In (EvUuid uuid) evs /\
    precedes (EvWriteFile path data None)
             (EvExec Launch demo_command (inl collision_error)) evs /\
    precedes (EvExec Launch demo_command (inl collision_error))
             (EvUnlink path unlinked) evs /\
    (unlinked = None -> files (snd run) !! path = None) /\
    (unlinked <> None -> files (snd run) !! path = Some data) /\
    allocation maxAttempts outcome allocated /\
    match outcome with
    | Return alt =>
        evs = allocated ++ earlier /\
        exists port,
          fst run =
          Return (fail_with ("Error: Port " +:+ Js.of_Z port
                             +:+ " is already allocated. Consider using port "
                             +:+ Js.of_Z alt +:+ " instead.")
                            (-32603)
                            ("Port " +:+ Js.of_Z port +:+ " is already allocated")
                            (Some {| suggested_port := alt |})) /\
          (forall requested,
              truthy_number (Params.port (with_runtime "docker" demo_params))
              = Some requested ->
              port = requested)
    | Throw _ =>
        evs = EvLog ("Error in deployVSCodeInstance: " +:+ exhaustion_message)
                :: allocated ++ earlier /\
        fst run =
        Return (fail_with ("Error: Failed to deploy VSCode instance: "
                           +:+ exhaustion_message)
                          (-32603)
                          ("Failed to deploy VSCode instance: "
                           +:+ exhaustion_message)
                          None)
    end /\
    In (EvUnlink path unlinked) earlier.
Proof.
  cbv zeta.
  assert (Hin : In (EvExec Launch demo_command (inl collision_error))
                   (events_since fresh_world
                      (snd (deployVSCodeInstance (colliding_env 20000 false)
                              plain_platform (with_runtime "docker" demo_params)
                              fresh_world)))) by find_event.
  assert (Hmsg : Js.includes "port is already allocated"
                             (error_message collision_error) = true)
    by (vm_compute; reflexivity).
  split; [exact Hin |]. split; [exact Hmsg |].
  exact (rollback_on_collision (colliding_env 20000 false) plain_platform
           (with_runtime "docker" demo_params) fresh_world
           demo_command collision_error Hin Hmsg).
Defined.

Lemma override_bypasses_cache_witness :
  truthy_string (Params.runtime (with_runtime "podman" demo_params)) = Some "podman" /\
  detectedRuntime (snd (deployVSCodeInstance (friendly_env 10000) plain_platform
                          (with_runtime "podman" demo_params) fresh_world))
  = detectedRuntime fresh_world.
Proof.
  split; [reflexivity |].
  exact (proj1 (override_bypasses_cache (friendly_env 10000) plain_platform
                  (with_runtime "podman" demo_params) fresh_world "podman" eq_refl)).
Defined.

Lemma conflict_before_launch_witness :
  let run := deployVSCodeInstance (crowded_env (Z.eqb 12345) 10000) plain_platform
                                  demo_params fresh_world in
  let evs := events_since fresh_world (snd run) in
  In (EvListen RequestedPort 12345 "0.0.0.0" (BindError "EADDRINUSE")) evs /\
  is_busy (BindError "EADDRINUSE") = true /\
  (exists outcome allocated earlier,
      allocation maxAttempts outcome allocated /\
      match outcome with
      | Return alt =>
          evs = allocated
                ++ EvListen RequestedPort 12345 "0.0.0.0" (BindError "EADDRINUSE")
                   :: earlier /\
          fst run =
          Return (fail_with ("Error: Port " +:+ Js.of_Z 12345
                             +:+ " is already in use. Consider using port "
                             +:+ Js.of_Z alt +:+ " instead.")
                            (-32603)
                            ("Port " +:+ Js.of_Z 12345 +:+ " is already in use")
                            (Some {| suggested_port := alt |}))
      | Throw _ =>
          evs = EvLog ("Error in deployVSCodeInstance: " +:+ exhaustion_message)
                  :: allocated
                  ++ EvListen RequestedPort 12345 "0.0.0.0" (BindError "EADDRINUSE")
                     :: earlier /\
          fst run =
          Return (fail_with ("Error: Failed to deploy VSCode instance: "
                             +:+ exhaustion_message)
                            (-32603)
                            ("Failed to deploy VSCode instance: "
                             +:+ exhaustion_message)
                            None)
      end) /\
  files (snd run) = files fresh_world /\
  forall ev, In ev evs -> side_effect ev = false.
Proof.
  cbv zeta.
  assert (Hin : In (EvListen RequestedPort 12345 "0.0.0.0" (BindError "EADDRINUSE"))
                   (events_since fresh_world
                      (snd (deployVSCodeInstance (crowded_env (Z.eqb 12345) 10000)
                              plain_platform demo_params fresh_world))))
    by find_event.
  split; [exact Hin |]. split; [reflexivity |].
  exact (conflict_before_launch (crowded_env (Z.eqb 12345) 10000) plain_platform
           demo_params fresh_world 12345 "0.0.0.0" (BindError "EADDRINUSE")
           Hin eq_refl).
Defined.

Lemma credential_flag_of_command_witness :
  let command password :=
    buildContainerCommand "docker" "vscode-demo-0f8fad5b" "/tmp/ws" 12345
                          (resolve_password plain_platform password)
                          ["ms-python.python"; "dbaeumer.vscode-eslint"]
                          (Text "1.0") "2g" [("DB_PASSWORD", "s3cret")] in
  flags_in (options_before "docker" "vscode-demo-0f8fad5b" "/tmp/ws" 12345
                           (Text "1.0") "2g" [("DB_PASSWORD", "s3cret")]
            ++ options_after ["ms-python.python"; "dbaeumer.vscode-eslint"])
  = 0%nat /\
  Js.occurrences credential_flag (DEFAULT_PASSWORD plain_platform) = 0%nat /\
  Js.occurrences credential_flag (command (JsStr EmptyString)) = 0%nat /\
  Js.occurrences credential_flag (command JsUndefined) = 1%nat.
Proof.
  cbv zeta.
  assert (Helsewhere :
            flags_in (options_before "docker" "vscode-demo-0f8fad5b" "/tmp/ws" 12345
                                     (Text "1.0") "2g" [("DB_PASSWORD", "s3cret")]
                      ++ options_after ["ms-python.python"; "dbaeumer.vscode-eslint"])
            = 0%nat) by (vm_compute; reflexivity).
  assert (Hdefault : Js.occurrences credential_flag (DEFAULT_PASSWORD plain_platform)
                     = 0%nat) by (vm_compute; reflexivity).
  destruct (credential_flag_of_command plain_platform "docker" "vscode-demo-0f8fad5b"
              "/tmp/ws" 12345 ["ms-python.python"; "dbaeumer.vscode-eslint"]
              (Text "1.0") "2g" [("DB_PASSWORD", "s3cret")])
    as (Hempty & Homitted & _).
  rewrite Helsewhere in Hempty, Homitted. rewrite Hdefault in Homitted.
  split; [exact Helsewhere |]. split; [exact Hdefault |].
  split; [exact Hempty | exact Homitted].
Defined.


Lemma demo_scenario_witness :
  let run := deployVSCodeInstance (friendly_env 10000) plain_platform
                                  demo_params fresh_world in
  let evs := events_since fresh_world (snd run) in
  Params.name demo_params = Some "demo" /\
  Params.workspace_path demo_params = Some "/tmp/ws" /\
  Params.port demo_params = Some 12345 /\
  Params.password demo_params = JsStr EmptyString /\
  In (EvExec Launch demo_command (inr "Up 2 seconds")) evs /\
  In (EvExec StatusQuery demo_status_command (inr "Up 2 seconds")) evs /\
  Js.trim "Up 2 seconds" <> EmptyString /\
  exists content instance,
    fst run = Return (Success content instance) /\
    Deployed.passwordless instance = true /\
    Deployed.port instance = 12345 /\
    Deployed.url instance = "http://localhost:12345".
Proof.
  cbv zeta.
  assert (Hlaunch : In (EvExec Launch demo_command (inr "Up 2 seconds"))
                       (events_since fresh_world
                          (snd (deployVSCodeInstance (friendly_env 10000)
                                  plain_platform demo_params fresh_world))))
    by find_event.
  assert (Hstatus : In (EvExec StatusQuery demo_status_command (inr "Up 2 seconds"))
                       (events_since fresh_world
                          (snd (deployVSCodeInstance (friendly_env 10000)
                                  plain_platform demo_params fresh_world))))
    by find_event.
  assert (Hblank : Js.trim "Up 2 seconds" <> EmptyString)
    by (vm_compute; discriminate).
  repeat (split; [first [reflexivity | assumption] |]).
  exact (demo_scenario (friendly_env 10000) plain_platform demo_params fresh_world
           eq_refl eq_refl eq_refl eq_refl
           demo_command "Up 2 seconds" demo_status_command "Up 2 seconds"
           Hlaunch Hstatus Hblank).
Defined.

Lemma record_without_credential_witness :
  let run := deployVSCodeInstance (friendly_env 10000) plain_platform
                                  demo_params fresh_world in
  let evs := events_since fresh_world (snd run) in
  In (EvWriteFile demo_record_path demo_record_text None) evs /\
  (exists name workspace uuid site port probe now,
      let instanceId := String.substring 0 8 uuid in
      let instanceName := "vscode-" +:+ name +:+ "-" +:+ instanceId in
      Params.name demo_params = Some name /\
      Params.workspace_path demo_params = Some workspace /\
      demo_record_path = record_path plain_platform instanceName /\
      demo_record_text =
      Json.stringify
        (Json.JObject
           [ ("id", Json.JString instanceId);
             ("name", Json.JString name);
             ("instance_name", Json.JString instanceName);
             ("workspace_path", Json.JString (path_resolve plain_platform workspace));
             ("port", Json.JNumber port);
             ("extensions",
               Json.JArray (List.map Json.JString
                              (resolve_extensions plain_platform demo_params)));
             ("cpu_limit", scalar_json (resolve_cpuLimit plain_platform demo_params));
             ("memory_limit",
               Json.JString (resolve_memoryLimit plain_platform demo_params));
             ("environment",
               Json.JObject
                 (List.map (fun kv => (fst kv, Json.JString (snd kv)))
                           (resolve_environment demo_params)));
             ("created_at", Json.JString now) ]) /\
      In (EvUuid uuid) evs /\
      In (EvClock now) evs /\
      In (EvListen site port "0.0.0.0" probe) evs /\
      is_busy probe = false /\
      (forall requested,
          truthy_number (Params.port demo_params) = Some requested ->
          port = requested /\ site = RequestedPort)) /\
  writes (events_since fresh_world
            (snd (deployVSCodeInstance (friendly_env 10000)
                    (with_default_password (Some "topsecret") plain_platform)
                    (with_password JsUndefined demo_params) fresh_world)))
  = writes evs.
Proof.
  cbv zeta.
  assert (Hin : In (EvWriteFile demo_record_path demo_record_text None)
                   (events_since fresh_world
                      (snd (deployVSCodeInstance (friendly_env 10000) plain_platform
                                                 demo_params fresh_world))))
    by find_event.
  split; [exact Hin |]. split.
  - exact (proj1 (record_without_credential (friendly_env 10000) plain_platform
                    demo_params fresh_world)
                 demo_record_path demo_record_text None Hin).
  - exact (proj2 (record_without_credential (friendly_env 10000) plain_platform
                    demo_params fresh_world)
                 JsUndefined (Some "topsecret")).
Defined.

Lemma prober_fail_open_witness :
  let run := checkPortAvailability (crowded_env (Z.eqb 12345) 10000) plain_platform
                                   RequestedPort 12345 fresh_world in
  0 <= 12345 <= 65535 /\
  listen_reply (crowded_env (Z.eqb 12345) 10000) (trace fresh_world) 12345 "0.0.0.0"
  = BindError "EADDRINUSE" /\
  events_since fresh_world (snd run)
  = [EvListen RequestedPort 12345 "0.0.0.0" (BindError "EADDRINUSE")] /\
  fst run = Return false.
Proof.
  cbv zeta.
  assert (Hport : 0 <= 12345 <= 65535) by lia.
  assert (Hreply : listen_reply (crowded_env (Z.eqb 12345) 10000) (trace fresh_world)
                                12345 "0.0.0.0" = BindError "EADDRINUSE")
    by reflexivity.
  split; [exact Hport |]. split; [exact Hreply |].
  destruct (proj1 (proj2 (proj2 (prober_fail_open (crowded_env (Z.eqb 12345) 10000)
                                   plain_platform RequestedPort 12345 fresh_world)))
                  Hport) as (Hevs & Hfalse & _).
  split; [exact Hevs |]. apply Hfalse. exact Hreply.
Defined.

(** The product of line 424 is rounded as doubles are: for this draw the
    exact product lies just below 518 and the double product is 518. *)
Example candidate_port_rounds :
  candidate_port 84012698321014 = 10518 /\
  84012698321014 * 55536 / 2 ^ 53 = 517.
Proof. vm_compute. auto. Qed.

(** The largest double below 1 gives the largest port. *)
Example candidate_port_largest : candidate_port (2 ^ 53 - 1) = 65535.
Proof. vm_compute. reflexivity. Qed.

(** The command and the record of the demo scenario, to the letter. *)
Example demo_command_is : demo_command = demo_command_text.
Proof. vm_compute. reflexivity. Qed.

Example demo_record_is : demo_record = demo_record_text.
Proof. vm_compute. reflexivity. Qed.

(** Quotes, backslashes and line breaks are escaped; empty arrays and
    nested objects are laid out as [JSON.stringify(value, null, 2)]
    does. *)
Example stringify_escapes :
  Json.stringify
    (Json.JObject
       [ ("text", Json.JString (quoted "a'b\c
d"));
         ("none", Json.JArray []);
         ("nested", Json.JObject [("PASSWORD", Json.JString "hunter2")]);
         ("below", Json.JNumber (-5)) ])
  = quoted "{
  'text': 'a\'b\\c\nd',
  'none': [],
  'nested': {
    'PASSWORD': 'hunter2'
  },
  'below': -5
}".
Proof. vm_compute. reflexivity. Qed.

(* ===================================================================== *)
(** * Further properties of the module *)
(* ===================================================================== *)

(** ** Strings *)

Lemma split_nonempty sep s : Js.split sep s <> [].
Proof.
  destruct s as [| c s]; cbn [Js.split]; [discriminate |].
  destruct (Ascii.eqb c sep); [discriminate |].
  destruct (Js.split sep s); discriminate.
Qed.

Lemma join_head sep c h t :
  Js.join sep (String c h :: t) = String c (Js.join sep (h :: t)).
Proof. destruct t; reflexivity. Qed.

(** Joining the parts of a split with the separator gives the string
    back. *)
Lemma join_split sep s :
  Js.join (String sep EmptyString) (Js.split sep s) = s.
Proof.
  induction s as [| c s IH]; [reflexivity |].
  cbn [Js.split].
  pose proof (split_nonempty sep s) as Hs.
  destruct (Js.split sep s) as [| h t] eqn:E; [contradiction |].
  destruct (Ascii.eqb_spec c sep) as [-> | Hne].
  - change (Js.join (String sep EmptyString) (EmptyString :: h :: t))
      with (String sep (Js.join (String sep EmptyString) (h :: t))).
    now rewrite IH.
  - rewrite join_head. now rewrite IH.
Qed.

(** ** Truthiness of the parameters *)

Lemma truthy_string_idem o : truthy_string (truthy_string o) = truthy_string o.
Proof.
  destruct o as [s |]; [| reflexivity]. cbn [truthy_string].
  destruct (Js.truthy s) eqn:H; [| reflexivity]. cbn [truthy_string]. now rewrite H.
Qed.

Lemma truthy_number_idem o : truthy_number (truthy_number o) = truthy_number o.
Proof.
  destruct o as [n |]; [| reflexivity]. cbn [truthy_number].
  destruct (n =? 0) eqn:H; [reflexivity |]. cbn [truthy_number]. now rewrite H.
Qed.

Lemma or_default_truthy o d : Js.or_default (truthy_string o) d = Js.or_default o d.
Proof.
  destruct o as [s |]; [| reflexivity]. cbn [truthy_string Js.or_default].
  destruct (Js.truthy s) eqn:H; [| reflexivity]. cbn [Js.or_default]. now rewrite H.
Qed.

Lemma passwordless_iff password :
  negb (password_truthy password) = true <-> passwordEnv password = EmptyString.
Proof.
  destruct password as [| | [| c s]]; cbn; split; try reflexivity; discriminate.
Qed.

(** ** Counting events *)

Lemma silent_kind (kind : event -> bool) (class : event -> bool) evs :
  (forall ev, class ev = true -> kind ev = false) ->
  Forall (fun ev => class ev = true) evs ->
  count kind evs = 0%nat.
Proof.
  intros Hclass Hall. unfold count.
  induction Hall as [| ev evs Hev _ IH]; [reflexivity |].
  cbn [List.filter]. rewrite (Hclass ev Hev). exact IH.
Qed.

Lemma count_app kind evs1 evs2 :
  count kind (evs1 ++ evs2) = (count kind evs1 + count kind evs2)%nat.
Proof. unfold count. rewrite List.filter_app, length_app. reflexivity. Qed.

Lemma count_cons kind ev evs :
  count kind (ev :: evs) = ((if kind ev then 1 else 0) + count kind evs)%nat.
Proof. unfold count. cbn [List.filter]. destruct (kind ev); reflexivity. Qed.

Lemma allocation_probes attempts o evs :
  allocation attempts o evs -> (count is_probe evs <= attempts)%nat.
Proof.
  intros [_ H]. change (count is_probe evs) with (probe_count evs).
  destruct o; [apply H |]. destruct H as (_ & -> & _). reflexivity.
Qed.

Lemma allocation_counts attempts o evs :
  allocation attempts o evs ->
  count is_launch evs = 0%nat /\ count is_write evs = 0%nat /\
  count is_unlink evs = 0%nat /\ count is_exec evs = 0%nat /\
  (count is_probe evs <= attempts)%nat.
Proof.
  intros Ha. pose proof (allocation_probes _ _ _ Ha) as Hp. destruct Ha as [Ha _].
  repeat split; try exact Hp.
  all: apply (silent_kind _ allocator_event); try exact Ha.
  all: intros [[] | | | | | [] | | | | |]; intros; first [reflexivity | discriminate].
Qed.

Lemma detection_counts evs :
  Forall (fun ev => detection_event ev = true) evs ->
  count is_launch evs = 0%nat /\ count is_write evs = 0%nat /\
  count is_unlink evs = 0%nat /\ count is_probe evs = 0%nat.
Proof.
  intros Hd. repeat split.
  all: apply (silent_kind _ detection_event); try exact Hd.
  all: intros [[] | | | | | [] | | | | |]; intros; first [reflexivity | discriminate].
Qed.

(** The numbers of events of each kind in the parts of a history. *)
Ltac tally :=
  repeat match goal with
         | Ha : allocation _ _ _ |- _ =>
             apply allocation_counts in Ha; destruct Ha as (? & ? & ? & ? & ?)
         | Hd : Forall (fun ev => detection_event ev = true) _ |- _ =>
             apply detection_counts in Hd; destruct Hd as (? & ? & ? & ?)
         end;
  repeat first [ rewrite count_app | rewrite count_cons
               | change (count ?k []) with 0%nat ];
  cbn [is_launch is_write is_unlink is_probe is_exec];
  unfold maxAttempts in *.

(** Follow the equations that relate the files and the cache of the
    worlds of a leaf. *)
Ltac follow_worlds :=
  repeat match goal with
         | H : files ?x = _ |- context [files ?x] => rewrite H
         | H : detectedRuntime ?x = _ |- context [detectedRuntime ?x] => rewrite H
         end.

(** ** Runtime detection *)

Section DetectionFull.

Variable env : Env.
Variable plat : Platform.

Lemma CONTAINER_RUNTIME_truthy : Js.truthy (CONTAINER_RUNTIME plat) = true.
Proof.
  unfold CONTAINER_RUNTIME, Js.or_default.
  destruct (env_CONTAINER_RUNTIME plat) as [s |]; [| reflexivity].
  destruct (Js.truthy s) eqn:H; [exact H | reflexivity].
Qed.

Lemma detectContainerRuntime_spec w :
  wpe (detectContainerRuntime env plat) w (detection w).
Proof.
  pose proof CONTAINER_RUNTIME_truthy as Hforced.
  unfold detectContainerRuntime, detect_uncached, try_engine.
  repeat wpe_step.
  all: unfold detection; tidy.
  all: repeat split; try reflexivity; try assumption;
    try (repeat constructor); try (unfold count; simpl; lia).
Qed.


(** X2. A detection that returns an engine has stored it in the cache,
    and every later call that sees this cache returns the same engine
    without running a command or changing anything. *)
Theorem detection_is_cached w r :
  fst (detectContainerRuntime env plat w) = Return r ->
  let w' := snd (detectContainerRuntime env plat w) in
  detectedRuntime w' = Some r /\
  forall later,
    detectedRuntime later = detectedRuntime w' ->
    detectContainerRuntime env plat later = (Return r, later).
Proof.
  intros Hrun. cbv zeta.
  pose proof (wpe_run _ _ _ (detectContainerRuntime_spec w)) as (_ & _ & _ & H).
  rewrite Hrun in H. destruct H as [Hcache Htruthy].
  split; [exact Hcache |].
  intros later Hlater. unfold detectContainerRuntime, bind, read_detectedRuntime.
  rewrite Hlater, Hcache, Htruthy. reflexivity.
Qed.

(** X3. With an empty cache and an engine configured by
    [CONTAINER_RUNTIME] (any value other than [auto]), detection returns
    the configured value as it is and caches it, without running any
    command. *)
Theorem detection_forced w :
  truthy_string (detectedRuntime w) = None ->
  CONTAINER_RUNTIME plat <> "auto" ->
  let run := detectContainerRuntime env plat w in
  fst run = Return (CONTAINER_RUNTIME plat) /\
  events_since w (snd run) = [] /\
  detectedRuntime (snd run) = Some (CONTAINER_RUNTIME plat).
Proof.
  intros Hcache Hforced. cbv zeta.
  assert (Hrun : detectContainerRuntime env plat w
                 = (Return (CONTAINER_RUNTIME plat),
                    set_detectedRuntime (CONTAINER_RUNTIME plat) w)).
  { unfold detectContainerRuntime, detect_uncached, bind, read_detectedRuntime.
    destruct (String.eqb_spec (CONTAINER_RUNTIME plat) "auto") as [Heq | _];
      [contradiction |].
    unfold truthy_string in Hcache.
    destruct (detectedRuntime w) as [r |]; [| reflexivity].
    destruct (Js.truthy r); [discriminate Hcache | reflexivity]. }
  rewrite Hrun. cbn [fst snd].
  rewrite (events_since_app w _ []) by reflexivity. auto.
Qed.

Lemma wpe_detect_full w Q :
  (forall o evs w', detection w o evs w' -> Q o evs w') ->
  wpe (detectContainerRuntime env plat) w Q.
Proof.
  intros H. eapply wpe_conseq; [apply detectContainerRuntime_spec | exact H].
Qed.

Lemma wpe_detect_cached w cached Q :
  detectedRuntime w = Some cached -> Js.truthy cached = true ->
  Q (Return cached) [] w ->
  wpe (detectContainerRuntime env plat) w Q.
Proof.
  intros Hcached Htruthy H. exists []. split.
  - unfold detectContainerRuntime, bind, read_detectedRuntime.
    rewrite Hcached, Htruthy. reflexivity.
  - unfold detectContainerRuntime, bind, read_detectedRuntime.
    rewrite Hcached, Htruthy. exact H.
Qed.

End DetectionFull.

(** One step of a run of the whole function, with all that
    [detectContainerRuntime] guarantees. *)
Ltac deploy_step_full :=
  lazymatch goal with
  | |- wpe (detectContainerRuntime _ _) _ _ =>
      apply wpe_detect_full;
      intros [?runtime | ?error] ?evs ?w'
             (?Hfiles & ?Hdetect & ?Hcount & ?Hcache & ?Hmore)
  | _ => deploy_step
  end; cbv beta iota.

(** ** The whole function *)

Section Provisioning.

Variable env : Env.
Variable plat : Platform.
Implicit Types (w : World) (evs : list event) (params : Params.t).

(** X4. A call without a runtime override that gets as far as drawing the
    instance id leaves a truthy engine in the cache, and a success
    reports this engine as its runtime. *)
Theorem deploy_caches_detected_runtime params w :
  truthy_string (Params.runtime params) = None ->
  let run := deployVSCodeInstance env plat params w in
  let evs := events_since w (snd run) in
  forall uuid,
    In (EvUuid uuid) evs ->
    exists r,
      detectedRuntime (snd run) = Some r /\ Js.truthy r = true /\
      forall content instance,
        fst run = Return (Success content instance) ->
        Deployed.runtime instance = r.
Proof.
  intros Hnone.
  by_run (deployVSCodeInstance env plat params) w.
  unfold deployVSCodeInstance, deploy_resolve. rewrite Hnone.
  repeat deploy_step_full.
  all: tidy; intros the_uuid Hin.
  all: in_cases Hin; try discriminate Hin; try (exfalso; foreign_event Hin).
  all: eexists; split; [follow_worlds; reflexivity |]; split; [assumption |].
  all: intros content instance [= <- <-]; reflexivity.
Qed.

(** X5. A call without a runtime override that finds an engine in the
    cache runs no detection command (its only commands are the launch and
    the status query), leaves the cache as it is and, on success, reports
    the cached engine. *)
Theorem deploy_uses_cached_runtime params w cached :
  truthy_string (Params.runtime params) = None ->
  detectedRuntime w = Some cached ->
  Js.truthy cached = true ->
  let run := deployVSCodeInstance env plat params w in
  let evs := events_since w (snd run) in
  (forall ev, In ev evs -> is_exec ev = true ->
              exists cmd reply, ev = EvExec Launch cmd reply \/
                                ev = EvExec StatusQuery cmd reply) /\
  detectedRuntime (snd run) = Some cached /\
  (forall content instance,
      fst run = Return (Success content instance) ->
      Deployed.runtime instance = cached).
Proof.
  intros Hnone Hcached Htruthy.
  by_run (deployVSCodeInstance env plat params) w.
  unfold deployVSCodeInstance, deploy_resolve. rewrite Hnone.
  repeat first [ apply (wpe_detect_cached env plat w cached _ Hcached Htruthy);
                 cbv beta iota
               | deploy_step ].
  all: tidy.
  all: (split; [| split; [follow_worlds; reflexivity |]]).
  all: try (intros content instance [= <- <-]; reflexivity).
  all: intros ev Hev Hexec; in_cases Hev;
    try (subst ev;
         first [ discriminate Hexec
               | do 2 eexists; first [left; reflexivity | right; reflexivity] ]).
  all: match goal with
       | Ha : allocation _ _ ?l, H : In _ ?l |- _ =>
           apply (allocation_events _ _ _ Ha) in H
       end;
    destruct ev as [[] | | | | | [] | | | | |]; discriminate.
Qed.

(** X6. When name and workspace are given and the call ends before an
    instance id is drawn, no engine was found: there was no override, the
    result is the error -32603 with the fixed message of the detection,
    only detection commands and log lines happened, and files and cache
    are as before. *)
Theorem engine_missing_reported params w name workspace :
  truthy_string (Params.name params) = Some name ->
  truthy_string (Params.workspace_path params) = Some workspace ->
  let run := deployVSCodeInstance env plat params w in
  let evs := events_since w (snd run) in
  (forall uuid, ~ In (EvUuid uuid) evs) ->
  fst run = Return (fail_with ("Error: " +:+ neither_message) (-32603)
                              neither_message None) /\
  truthy_string (Params.runtime params) = None /\
  files (snd run) = files w /\
  detectedRuntime (snd run) = detectedRuntime w /\
  Forall (fun ev => detection_event ev = true) evs.
Proof.
  intros Hname Hworkspace.
  by_run (deployVSCodeInstance env plat params) w.
  unfold deployVSCodeInstance. rewrite Hname, Hworkspace.
  repeat deploy_step_full.
  all: tidy; intros Hnone.
  all: try (exfalso; eapply Hnone; event_there).
  all: match goal with
       | H : error_message _ = neither_message |- _ => rewrite H
       end.
  all: repeat split; try reflexivity; try assumption.
  all: follow_worlds; reflexivity.
Qed.


(** X8. A requested port outside 0..65535 never gives a success: the call
    fails without binding any port, changing any file or starting a
    container, and once the workspace was found accessible the result is
    the generic error -32603 carrying the message of the rejected
    [listen]. *)
Theorem invalid_port_rejected params w requested :
  truthy_number (Params.port params) = Some requested ->
  ~ 0 <= requested <= 65535 ->
  let run := deployVSCodeInstance env plat params w in
  let evs := events_since w (snd run) in
  (exists content err, fst run = Return (Failure content err)) /\
  files (snd run) = files w /\
  (forall ev, In ev evs -> side_effect ev = false /\ is_probe ev = false) /\
  (forall uuid path,
      In (EvUuid uuid) evs -> In (EvAccess path None) evs ->
      fst run =
      Return (fail_with
                ("Error: Failed to deploy VSCode instance: "
                 +:+ bad_port_message plat requested)
                (-32603)
                ("Failed to deploy VSCode instance: "
                 +:+ bad_port_message plat requested)
                None)).
Proof.
  intros Hport Hbad.
  by_run (deployVSCodeInstance env plat params) w.
  unfold deployVSCodeInstance, deploy_resolve. rewrite Hport.
  repeat deploy_step_full.
  all: try contradiction.
  all: tidy.
  all: (split; [do 2 eexists; reflexivity |]).
  all: (split; [follow_worlds; reflexivity |]).
  all: split.
  all: try (intros the_uuid the_path Hu Ha; try reflexivity;
            in_cases Ha; try discriminate Ha; exfalso; foreign_event Ha).
  all: intros ev Hev; in_cases Hev; try (subst ev; split; reflexivity).
  all: match goal with
       | Hd : Forall _ ?l, H : In _ ?l |- _ =>
           apply (detection_events _ Hd) in H
       end;
    destruct ev as [[] | | | | | [] | | | | |]; first [discriminate | split; reflexivity].
Qed.

(** X9. The port of a success is in 1..65535 and was probed in this call
    and not found in use: it is the requested port, probed as such, when
    a (truthy) port was requested, and otherwise a port of at least 10000
    probed by the allocator. *)
Theorem success_port params w :
  let run := deployVSCodeInstance env plat params w in
  let evs := events_since w (snd run) in
  forall content instance,
    fst run = Return (Success content instance) ->
    exists site reply,
      In (EvListen site (Deployed.port instance) "0.0.0.0" reply) evs /\
      is_busy reply = false /\
      0 < Deployed.port instance <= 65535 /\
      match truthy_number (Params.port params) with
      | Some requested => Deployed.port instance = requested /\ site = RequestedPort
      | None => 10000 <= Deployed.port instance /\ site = Allocator
      end.
Proof.
  by_run (deployVSCodeInstance env plat params) w.
  repeat deploy_step_full.
  all: tidy; intros content instance [= <- <-]; cbn [Deployed.port].
  all: repeat match goal with
              | H : truthy_number _ = Some _ |- _ =>
                  apply truthy_number_Some in H; destruct H as [_ H]
              | H : negb (negb (is_busy ?r)) = false |- _ =>
                  destruct (is_busy r) eqn:?; [discriminate H | clear H]
              | H : allocation _ (Return _) _ |- _ =>
                  destruct H as (_ & ? & _ & ? & ? & -> & ?)
              end.
  all: unfold minPort, maxPort in *.
  all: do 2 eexists.
  all: (split; [event_there |]).
  all: (split; [assumption |]); split; [lia | split; first [reflexivity | lia]].
Qed.

(** X10. A port suggested in the details of an error lies in
    [10000, 65535] and was probed by the allocator in this call and not
    found in use; the error then has code -32603 and says that a port is
    already in use or already allocated. *)
Theorem suggested_port_probed_free params w :
  let run := deployVSCodeInstance env plat params w in
  let evs := events_since w (snd run) in
  forall content err suggestion,
    fst run = Return (Failure content err) ->
    details err = Some suggestion ->
    10000 <= suggested_port suggestion <= 65535 /\
    (exists reply,
        In (EvListen Allocator (suggested_port suggestion) "0.0.0.0" reply) evs /\
        is_busy reply = false) /\
    code err = -32603 /\
    exists port,
      message err = "Port " +:+ Js.of_Z port +:+ " is already in use" \/
      message err = "Port " +:+ Js.of_Z port +:+ " is already allocated".
Proof.
  by_run (deployVSCodeInstance env plat params) w.
  repeat deploy_step_full.
  all: tidy; intros content err suggestion [= <- <-]; cbn [details code message].
  all: intros [= <-]; cbn [suggested_port].
  all: match goal with
       | H : allocation _ (Return ?p) _ |- _ <= ?p <= _ /\ _ =>
           destruct H as (_ & ? & _ & ? & ? & -> & ?)
       end.
  all: unfold minPort, maxPort in *.
  all: (split; [assumption |]).
  all: (split; [eexists; split; [| eassumption]; event_there |]).
  all: (split; [reflexivity |]).
  all: eexists; first [left; reflexivity | right; reflexivity].
Qed.

(** X11. The descriptor of a success is coherent: its id is the first 8
    characters of the uuid drawn in this call, its name is the name
    parameter, its instance name is [vscode-<name>-<id>], its workspace
    path is the resolved parameter, its url is
    [http://localhost:<port>], its status is [running]; and the record
    file [<instance name>.json] of the records directory was written in
    this call and still holds what was written. *)
Theorem success_descriptor params w :
  let run := deployVSCodeInstance env plat params w in
  let evs := events_since w (snd run) in
  forall content instance,
    fst run = Return (Success content instance) ->
    exists uuid data,
      In (EvUuid uuid) evs /\
      Deployed.id instance = String.substring 0 8 uuid /\
      Params.name params = Some (Deployed.name instance) /\
      Deployed.instance_name instance
      = "vscode-" +:+ Deployed.name instance +:+ "-" +:+ Deployed.id instance /\
      (exists workspace,
          Params.workspace_path params = Some workspace /\
          Deployed.workspace_path instance = path_resolve plat workspace) /\
      Deployed.url instance = "http://localhost:" +:+ Js.of_Z (Deployed.port instance) /\
      Deployed.status instance = "running" /\
      In (EvWriteFile (record_path plat (Deployed.instance_name instance)) data None) evs /\
      files (snd run) !! record_path plat (Deployed.instance_name instance) = Some data.
Proof.
  by_run (deployVSCodeInstance env plat params) w.
  repeat deploy_step_full.
  all: tidy; intros content instance [= <- <-].
  all: cbn [Deployed.id Deployed.name Deployed.instance_name Deployed.workspace_path
            Deployed.url Deployed.status Deployed.port].
  all: repeat match goal with
              | H : truthy_string _ = Some _ |- _ =>
                  apply truthy_string_Some in H; destruct H as [H _]
              end.
  all: do 2 eexists.
  all: (split; [event_there |]).
  all: (split; [reflexivity |]); (split; [assumption |]); (split; [reflexivity |]).
  all: (split; [eexists; split; [eassumption | reflexivity] |]).
  all: (split; [reflexivity |]); (split; [reflexivity |]).
  all: (split; [simpl; solve [repeat first [left; reflexivity | right]] |]).
  all: unfold record_path, records_dir; apply lookup_insert_eq.
Qed.

(** X12. A success is only reported after the engine accepted the launch
    command built from the reported runtime, instance name, workspace
    path and port and the resolved defaults, and after the status query
    for this instance returned a non-blank status; and the descriptor
    says passwordless exactly when the password part of the command is
    empty. *)
Theorem success_after_verification params w :
  let run := deployVSCodeInstance env plat params w in
  let evs := events_since w (snd run) in
  forall content instance,
    fst run = Return (Success content instance) ->
    let password := resolve_password plat (Params.password params) in
    let command :=
      buildContainerCommand (Deployed.runtime instance)
                            (Deployed.instance_name instance)
                            (Deployed.workspace_path instance)
                            (Deployed.port instance) password
                            (resolve_extensions plat params)
                            (resolve_cpuLimit plat params)
                            (resolve_memoryLimit plat params)
                            (resolve_environment params) in
    (exists out status,
        In (EvExec Launch command (inr out)) evs /\
        In (EvExec StatusQuery
                   (statusCommand (Deployed.runtime instance)
                                  (Deployed.instance_name instance))
                   (inr status)) evs /\
        Js.trim status <> EmptyString) /\
    (Deployed.passwordless instance = true <-> passwordEnv password = EmptyString).
Proof.
  by_run (deployVSCodeInstance env plat params) w.
  repeat deploy_step_full.
  all: tidy; intros content instance [= <- <-]; cbv zeta.
  all: cbn [Deployed.runtime Deployed.instance_name Deployed.workspace_path
            Deployed.port Deployed.passwordless].
  all: (split; [| apply passwordless_iff]).
  all: do 2 eexists.
  all: (split; [simpl; solve [repeat first [left; reflexivity | right]] |]).
  all: (split; [simpl; solve [repeat first [left; reflexivity | right]] |]).
  all: match goal with
       | H : negb (Js.truthy ?s) = false |- ?s <> _ =>
           intros Hs; rewrite Hs in H; discriminate H
       end.
Qed.

(** X13. The status query is only run after a launch command that the
    engine accepted, with the two-second wait between them. *)
Theorem status_only_after_launch params w :
  let run := deployVSCodeInstance env plat params w in
  let evs := events_since w (snd run) in
  forall query reply,
    In (EvExec StatusQuery query reply) evs ->
    exists cmd out,
      precedes (EvExec Launch cmd (inr out)) (EvSleep 2000) evs /\
      precedes (EvSleep 2000) (EvExec StatusQuery query reply) evs.
Proof.
  by_run (deployVSCodeInstance env plat params) w.
  repeat deploy_step_full.
  all: tidy; intros the_query the_reply Hin.
  all: in_cases Hin; try discriminate Hin; try (exfalso; foreign_event Hin).
  all: injection Hin as <- <-.
  all: do 2 eexists; split; find_precedes.
Qed.

(** X14. When the launch command fails with a message that does not speak
    of an allocated port, the call returns the error -32603
    [Failed to deploy <runtime> container: <message>] with the message of
    the engine as it is, where the command that failed is
    [<runtime> run -d ...]. *)
Theorem launch_failure_reported params w :
  let run := deployVSCodeInstance env plat params w in
  let evs := events_since w (snd run) in
  forall cmd error,
    In (EvExec Launch cmd (inl error)) evs ->
    is_collision (inl error) = false ->
    exists runtime rest,
      cmd = runtime +:+ " run -d " +:+ rest /\
      fst run =
      Return (fail_with
                ("Error deploying " +:+ runtime +:+ " container: " +:+ error_message error)
                (-32603)
                ("Failed to deploy " +:+ runtime +:+ " container: " +:+ error_message error)
                None).
Proof.
  by_run (deployVSCodeInstance env plat params) w.
  repeat deploy_step_full.
  all: tidy; intros the_cmd the_error Hin Hcollision.
  all: in_cases Hin; try discriminate Hin; try (exfalso; foreign_event Hin).
  all: injection Hin as <- <-; simpl in Hcollision; try congruence.
  all: do 2 eexists; split; reflexivity.
Qed.

(** X15. The answer to the status query decides the result: a rejected
    query gives the generic error -32603 with its message, a blank status
    gives the error [Failed to start VSCode instance], and any other
    status gives a success. *)
Theorem verification_outcomes params w :
  let run := deployVSCodeInstance env plat params w in
  let evs := events_since w (snd run) in
  forall query reply,
    In (EvExec StatusQuery query reply) evs ->
    match reply with
    | inl error =>
        fst run =
        Return (fail_with
                  ("Error: Failed to deploy VSCode instance: " +:+ error_message error)
                  (-32603)
                  ("Failed to deploy VSCode instance: " +:+ error_message error)
                  None)
    | inr status =>
        if Js.truthy (Js.trim status)
        then exists content instance, fst run = Return (Success content instance)
        else fst run =
             Return (fail_with "Error: Failed to start VSCode instance" (-32603)
                               "Failed to start VSCode instance" None)
    end.
Proof.
  by_run (deployVSCodeInstance env plat params) w.
  repeat deploy_step_full.
  all: tidy; intros the_query the_reply Hin.
  all: in_cases Hin; try discriminate Hin; try (exfalso; foreign_event Hin).
  all: injection Hin as <- <-.
  all: try reflexivity.
  all: match goal with
       | H : negb (Js.truthy ?s) = _ |- _ =>
           destruct (Js.truthy s); try discriminate H
       end.
  all: first [reflexivity | do 2 eexists; reflexivity].
Qed.

(** X16. One call never retries: it runs at most one launch command,
    writes at most one file, unlinks at most one file, probes at most 20
    ports and runs at most 6 commands in all. *)
Theorem no_retry params w :
  let run := deployVSCodeInstance env plat params w in
  let evs := events_since w (snd run) in
  (count is_launch evs <= 1)%nat /\
  (count is_write evs <= 1)%nat /\
  (count is_unlink evs <= 1)%nat /\
  (count is_probe evs <= 20)%nat /\
  (count is_exec evs <= 6)%nat.
Proof.
  by_run (deployVSCodeInstance env plat params) w.
  repeat deploy_step_full.
  all: tidy.
  all: repeat split.
  all: tally.
  all: lia.
Qed.

(** X17. A file the call did not write is left as it was, and a file is
    only unlinked after a failed launch that followed the successful
    write of this very file. *)
Theorem other_files_untouched params w :
  let run := deployVSCodeInstance env plat params w in
  let evs := events_since w (snd run) in
  (forall path,
      (forall data reply, ~ In (EvWriteFile path data reply) evs) ->
      files (snd run) !! path = files w !! path) /\
  (forall path reply,
      In (EvUnlink path reply) evs ->
      exists data cmd error,
        precedes (EvWriteFile path data None) (EvExec Launch cmd (inl error)) evs /\
        precedes (EvExec Launch cmd (inl error)) (EvUnlink path reply) evs).
Proof.
  by_run (deployVSCodeInstance env plat params) w.
  repeat deploy_step_full.
  all: tidy; split.
  all: try (intros the_path the_reply Hin; in_cases Hin; try discriminate Hin;
            try (exfalso; foreign_event Hin);
            injection Hin as <- <-; do 3 eexists; split; find_precedes).
  all: intros the_path Hnot; follow_worlds.
  all: try reflexivity.
  all: rewrite ?lookup_delete_ne, ?lookup_insert_ne; try reflexivity.
  all: intros <-; eapply Hnot; event_there.
Qed.

(** X18. A falsy value of [name], [workspace_path], [runtime] or
    [memory_limit] (the empty string) or of [port] or [cpu_limit] (zero)
    has the effect of leaving the parameter out: the two calls have the
    same result, the same events and the same final state. *)
Theorem falsy_as_omitted params w :
  deployVSCodeInstance env plat (without_falsy params) w
  = deployVSCodeInstance env plat params w.
Proof.
  unfold deployVSCodeInstance, deploy_resolve, deploy_persist,
    resolve_password, resolve_extensions, resolve_cpuLimit, resolve_memoryLimit,
    resolve_environment.
  cbn [without_falsy Params.name Params.workspace_path Params.port Params.password
       Params.extensions Params.cpu_limit Params.memory_limit Params.environment
       Params.runtime].
  rewrite !truthy_string_idem, !truthy_number_idem, or_default_truthy.
  reflexivity.
Qed.

(** X19. Without an [extensions] parameter the extensions are the parts
    of [DEFAULT_EXTENSIONS] between commas, and joining them again gives
    [DEFAULT_EXTENSIONS] to the letter: the launch command ends with
    [-e EXTENSIONS=<DEFAULT_EXTENSIONS>] and the image. *)
Theorem default_extensions_verbatim params :
  Params.extensions params = None ->
  Js.join "," (resolve_extensions plat params) = DEFAULT_EXTENSIONS plat /\
  forall runtime instanceName workspacePath port password cpuLimit memoryLimit
         environment,
  exists front,
    buildContainerCommand runtime instanceName workspacePath port password
                          (resolve_extensions plat params) cpuLimit memoryLimit
                          environment
    = front +:+ "-e EXTENSIONS=" +:+ DEFAULT_EXTENSIONS plat
      +:+ "     codercom/code-server:latest".
Proof.
  intros Hnone.
  assert (Hjoin : Js.join "," (resolve_extensions plat params) = DEFAULT_EXTENSIONS plat).
  { unfold resolve_extensions. rewrite Hnone. apply join_split. }
  split; [exact Hjoin |].
  intros. unfold buildContainerCommand. cbv zeta. rewrite Hjoin.
  exists (runtime +:+ " run -d "
          +:+ "    --name " +:+ instanceName +:+ " "
          +:+ "    " +:+ restartFlag runtime +:+ " "
          +:+ "    -p " +:+ Js.of_Z port +:+ ":8080 "
          +:+ "    -v " +:+ workspacePath +:+ ":/workspace "
          +:+ "    -v vscode-data-" +:+ instanceName
          +:+ ":/home/coder/.local/share/code-server "
          +:+ "    -v vscode-extensions-" +:+ instanceName
          +:+ ":/home/coder/.vscode/extensions "
          +:+ "    --cpus=" +:+ scalar_text cpuLimit +:+ " "
          +:+ "    --memory=" +:+ memoryLimit +:+ " "
          +:+ "    " +:+ envVars environment +:+ " "
          +:+ "    " +:+ passwordEnv password +:+ " "
          +:+ "    ").
  rewrite !append_assoc.
  reflexivity.
Qed.

(** X20. The text of an error follows its message: it is [Error: ]
    followed by the message, with the advice to use the suggested port
    appended when the error carries one; the only exception is the error
    of a failed launch, whose text starts with [Error deploying] where
    the message starts with [Failed to deploy]. *)
Theorem failure_text_follows_message params w :
  let run := deployVSCodeInstance env plat params w in
  let evs := events_since w (snd run) in
  forall content err,
    fst run = Return (Failure content err) ->
    exists line,
      content = [ {| type := "text"; text := line |} ] /\
      match details err with
      | Some suggestion =>
          line = "Error: " +:+ message err +:+ ". Consider using port "
                 +:+ Js.of_Z (suggested_port suggestion) +:+ " instead."
      | None =>
          line = "Error: " +:+ message err \/
          exists runtime cmd error,
            In (EvExec Launch cmd (inl error)) evs /\
            message err = "Failed to deploy " +:+ runtime +:+ " container: "
                          +:+ error_message error /\
            line = "Error deploying " +:+ runtime +:+ " container: "
                   +:+ error_message error
      end.
Proof.
  by_run (deployVSCodeInstance env plat params) w.
  repeat deploy_step_full.
  all: tidy; intros content err [= <- <-]; cbn [details message suggested_port].
  all: eexists; (split; [reflexivity |]).
  all: rewrite ?append_assoc.
  all: first [ reflexivity
             | left; reflexivity
             | right; do 3 eexists;
               split; [simpl; solve [repeat first [left; reflexivity | right]] |];
               split; reflexivity ].
Qed.

(** X21. The text of a success reports the fields of the descriptor
    returned with it (runtime, name, id, url, status, workspace path),
    and the password in clear unless the instance is passwordless. *)
Theorem success_text_follows_descriptor params w :
  let run := deployVSCodeInstance env plat params w in
  forall content instance,
    fst run = Return (Success content instance) ->
    let password := resolve_password plat (Params.password params) in
    content =
    [ {| type := "text";
         text := "VSCode instance deployed successfully!" +:+ Json.newline +:+ Json.newline
                 +:+ "Runtime: " +:+ Deployed.runtime instance +:+ Json.newline
                 +:+ "Name: " +:+ Deployed.name instance +:+ Json.newline
                 +:+ "Instance ID: " +:+ Deployed.id instance +:+ Json.newline
                 +:+ "URL: " +:+ Deployed.url instance +:+ Json.newline
                 +:+ (if Deployed.passwordless instance
                      then "Authentication: Passwordless"
                      else "Password: " +:+ password_text password) +:+ Json.newline
                 +:+ "Status: " +:+ Deployed.status instance +:+ Json.newline
                 +:+ "Workspace: " +:+ Deployed.workspace_path instance |} ].
Proof.
  cbv zeta.
  pattern (fst (deployVSCodeInstance env plat params w)).
  apply (wpe_run _ w (fun o _ _ => _ o)).
  repeat deploy_step_full.
  all: intros content instance [= <- <-].
  all: cbn [Deployed.runtime Deployed.name Deployed.id Deployed.url
            Deployed.passwordless Deployed.status Deployed.workspace_path].
  all: destruct (password_truthy (resolve_password plat (Params.password params)));
    cbn [negb]; rewrite ?append_assoc; reflexivity.
Qed.

End Provisioning.

(** ** The properties above in concrete runs *)


Lemma detection_is_cached_witness :
  fst (detectContainerRuntime (friendly_env 10000) plain_platform fresh_world)
  = Return "docker" /\
  detectedRuntime (snd (detectContainerRuntime (friendly_env 10000) plain_platform
                          fresh_world))
  = Some "docker".
Proof.
  assert (Hrun : fst (detectContainerRuntime (friendly_env 10000) plain_platform
                        fresh_world) = Return "docker")
    by (vm_compute; reflexivity).
  split; [exact Hrun |].
  exact (proj1 (detection_is_cached (friendly_env 10000) plain_platform fresh_world
                  "docker" Hrun)).
Defined.

Lemma detection_forced_witness :
  truthy_string (detectedRuntime fresh_world) = None /\
  CONTAINER_RUNTIME (forced_platform "podman") <> "auto" /\
  fst (detectContainerRuntime (friendly_env 10000) (forced_platform "podman")
         fresh_world)
  = Return (CONTAINER_RUNTIME (forced_platform "podman")).
Proof.
  assert (Hforced : CONTAINER_RUNTIME (forced_platform "podman") <> "auto")
    by (vm_compute; discriminate).
  split; [reflexivity |]. split; [exact Hforced |].
  exact (proj1 (detection_forced (friendly_env 10000) (forced_platform "podman")
                  fresh_world eq_refl Hforced)).
Defined.

Lemma deploy_caches_detected_runtime_witness :
  let run := deployVSCodeInstance (friendly_env 10000) plain_platform
                                  demo_params fresh_world in
  let evs := events_since fresh_world (snd run) in
  truthy_string (Params.runtime demo_params) = None /\
  In (EvUuid "0f8fad5b-d9cb-469f-a165-70867728950e") evs /\
  exists r,
    detectedRuntime (snd run) = Some r /\ Js.truthy r = true /\
    forall content instance,
      fst run = Return (Success content instance) ->
      Deployed.runtime instance = r.
Proof.
  cbv zeta.
  assert (Hin : In (EvUuid "0f8fad5b-d9cb-469f-a165-70867728950e")
                   (events_since fresh_world
                      (snd (deployVSCodeInstance (friendly_env 10000) plain_platform
                                                 demo_params fresh_world))))
    by find_event.
  split; [reflexivity |]. split; [exact Hin |].
  exact (deploy_caches_detected_runtime (friendly_env 10000) plain_platform
           demo_params fresh_world eq_refl
           "0f8fad5b-d9cb-469f-a165-70867728950e" Hin).
Defined.

Lemma deploy_uses_cached_runtime_witness :
  truthy_string (Params.runtime demo_params) = None /\
  detectedRuntime (cached_world "podman") = Some "podman" /\
  Js.truthy "podman" = true /\
  detectedRuntime (snd (deployVSCodeInstance (friendly_env 10000) plain_platform
                          demo_params (cached_world "podman")))
  = Some "podman".
Proof.
  repeat (split; [reflexivity |]).
  exact (proj1 (proj2 (deploy_uses_cached_runtime (friendly_env 10000) plain_platform
                         demo_params (cached_world "podman") "podman"
                         eq_refl eq_refl eq_refl))).
Defined.

Lemma engine_missing_reported_witness :
  let run := deployVSCodeInstance (failing_env (fun _ => true)) plain_platform
                                  demo_params fresh_world in
  truthy_string (Params.name demo_params) = Some "demo" /\
  truthy_string (Params.workspace_path demo_params) = Some "/tmp/ws" /\
  fst run = Return (fail_with ("Error: " +:+ neither_message) (-32603)
                              neither_message None).
Proof.
  cbv zeta.
  assert (Hnone : forall uuid,
             ~ In (EvUuid uuid)
                 (events_since fresh_world
                    (snd (deployVSCodeInstance (failing_env (fun _ => true))
                            plain_platform demo_params fresh_world)))).
  { intros uuid Hin. vm_compute in Hin.
    repeat (destruct Hin as [Hin | Hin]; [discriminate Hin |]). exact Hin. }
  split; [reflexivity |]. split; [reflexivity |].
  exact (proj1 (engine_missing_reported (failing_env (fun _ => true)) plain_platform
                  demo_params fresh_world "demo" "/tmp/ws" eq_refl eq_refl Hnone)).
Defined.


Lemma invalid_port_rejected_witness :
  let run := deployVSCodeInstance (friendly_env 10000) plain_platform
                                  (with_port (Some 70000) demo_params) fresh_world in
  truthy_number (Params.port (with_port (Some 70000) demo_params)) = Some 70000 /\
  ~ 0 <= 70000 <= 65535 /\
  exists content err, fst run = Return (Failure content err).
Proof.
  cbv zeta.
  assert (Hbad : ~ 0 <= 70000 <= 65535) by lia.
  split; [reflexivity |]. split; [exact Hbad |].
  exact (proj1 (invalid_port_rejected (friendly_env 10000) plain_platform
                  (with_port (Some 70000) demo_params) fresh_world 70000
                  eq_refl Hbad)).
Defined.

Lemma success_port_witness :
  let run := deployVSCodeInstance (friendly_env 10000) plain_platform
                                  demo_params fresh_world in
  let evs := events_since fresh_world (snd run) in
  fst run = Return (Success demo_content demo_instance) /\
  exists site reply,
    In (EvListen site (Deployed.port demo_instance) "0.0.0.0" reply) evs /\
    is_busy reply = false /\
    0 < Deployed.port demo_instance <= 65535 /\
    match truthy_number (Params.port demo_params) with
    | Some requested => Deployed.port demo_instance = requested /\ site = RequestedPort
    | None => 10000 <= Deployed.port demo_instance /\ site = Allocator
    end.
Proof.
  cbv zeta.
  assert (Hrun : fst (deployVSCodeInstance (friendly_env 10000) plain_platform
                        demo_params fresh_world)
                 = Return (Success demo_content demo_instance))
    by (vm_compute; reflexivity).
  split; [exact Hrun |].
  exact (success_port (friendly_env 10000) plain_platform demo_params fresh_world
           demo_content demo_instance Hrun).
Defined.

Lemma suggested_port_probed_free_witness :
  let run := deployVSCodeInstance (crowded_env (Z.eqb 12345) 10000) plain_platform
                                  demo_params fresh_world in
  let evs := events_since fresh_world (snd run) in
  fst run = Return (Failure conflict_content conflict_error) /\
  details conflict_error = Some {| suggested_port := 10000 |} /\
  10000 <= 10000 <= 65535 /\
  exists reply,
    In (EvListen Allocator 10000 "0.0.0.0" reply) evs /\ is_busy reply = false.
Proof.
  cbv zeta.
  assert (Hrun : fst (deployVSCodeInstance (crowded_env (Z.eqb 12345) 10000)
                        plain_platform demo_params fresh_world)
                 = Return (Failure conflict_content conflict_error))
    by (vm_compute; reflexivity).
  split; [exact Hrun |]. split; [reflexivity |].
  pose proof (suggested_port_probed_free (crowded_env (Z.eqb 12345) 10000)
                plain_platform demo_params fresh_world conflict_content
                conflict_error {| suggested_port := 10000 |} Hrun eq_refl)
    as (Hrange & Hprobe & _).
  exact (conj Hrange Hprobe).
Defined.

Lemma success_descriptor_witness :
  let run := deployVSCodeInstance (friendly_env 10000) plain_platform
                                  demo_params fresh_world in
  let evs := events_since fresh_world (snd run) in
  fst run = Return (Success demo_content demo_instance) /\
  exists uuid data,
    In (EvUuid uuid) evs /\
    Deployed.id demo_instance = String.substring 0 8 uuid /\
    Params.name demo_params = Some (Deployed.name demo_instance) /\
    Deployed.instance_name demo_instance
    = "vscode-" +:+ Deployed.name demo_instance +:+ "-" +:+ Deployed.id demo_instance /\
    (exists workspace,
        Params.workspace_path demo_params = Some workspace /\
        Deployed.workspace_path demo_instance = path_resolve plain_platform workspace) /\
    Deployed.url demo_instance
    = "http://localhost:" +:+ Js.of_Z (Deployed.port demo_instance) /\
    Deployed.status demo_instance = "running" /\
    In (EvWriteFile (record_path plain_platform (Deployed.instance_name demo_instance))
                    data None) evs /\
    files (snd run) !! record_path plain_platform (Deployed.instance_name demo_instance)
    = Some data.
Proof.
  cbv zeta.
  assert (Hrun : fst (deployVSCodeInstance (friendly_env 10000) plain_platform
                        demo_params fresh_world)
                 = Return (Success demo_content demo_instance))
    by (vm_compute; reflexivity).
  split; [exact Hrun |].
  exact (success_descriptor (friendly_env 10000) plain_platform demo_params fresh_world
           demo_content demo_instance Hrun).
Defined.

Lemma success_after_verification_witness :
  let run := deployVSCodeInstance (friendly_env 10000) plain_platform
                                  demo_params fresh_world in
  let evs := events_since fresh_world (snd run) in
  fst run = Return (Success demo_content demo_instance) /\
  (Deployed.passwordless demo_instance = true <->
   passwordEnv (resolve_password plain_platform (Params.password demo_params))
   = EmptyString).
Proof.
  cbv zeta.
  assert (Hrun : fst (deployVSCodeInstance (friendly_env 10000) plain_platform
                        demo_params fresh_world)
                 = Return (Success demo_content demo_instance))
    by (vm_compute; reflexivity).
  split; [exact Hrun |].
  exact (proj2 (success_after_verification (friendly_env 10000) plain_platform
                  demo_params fresh_world demo_content demo_instance Hrun)).
Defined.

Lemma status_only_after_launch_witness :
  let run := deployVSCodeInstance (friendly_env 10000) plain_platform
                                  demo_params fresh_world in
  let evs := events_since fresh_world (snd run) in
  In (EvExec StatusQuery demo_status_command (inr "Up 2 seconds")) evs /\
  exists cmd out,
    precedes (EvExec Launch cmd (inr out)) (EvSleep 2000) evs /\
    precedes (EvSleep 2000)
             (EvExec StatusQuery demo_status_command (inr "Up 2 seconds")) evs.
Proof.
  cbv zeta.
  assert (Hin : In (EvExec StatusQuery demo_status_command (inr "Up 2 seconds"))
                   (events_since fresh_world
                      (snd (deployVSCodeInstance (friendly_env 10000) plain_platform
                                                 demo_params fresh_world))))
    by find_event.
  split; [exact Hin |].
  exact (status_only_after_launch (friendly_env 10000) plain_platform demo_params
           fresh_world demo_status_command (inr "Up 2 seconds") Hin).
Defined.

Lemma launch_failure_reported_witness :
  let run := deployVSCodeInstance (failing_env (String.prefix "docker run"))
                                  plain_platform demo_params fresh_world in
  let evs := events_since fresh_world (snd run) in
  In (EvExec Launch demo_command (inl launch_error)) evs /\
  is_collision (inl launch_error) = false /\
  exists runtime rest,
    demo_command = runtime +:+ " run -d " +:+ rest /\
    fst run =
    Return (fail_with
              ("Error deploying " +:+ runtime +:+ " container: "
               +:+ error_message launch_error)
              (-32603)
              ("Failed to deploy " +:+ runtime +:+ " container: "
               +:+ error_message launch_error)
              None).
Proof.
  cbv zeta.
  assert (Hin : In (EvExec Launch demo_command (inl launch_error))
                   (events_since fresh_world
                      (snd (deployVSCodeInstance
                              (failing_env (String.prefix "docker run"))
                              plain_platform demo_params fresh_world))))
    by find_event.
  assert (Hother : is_collision (inl launch_error) = false)
    by (vm_compute; reflexivity).
  split; [exact Hin |]. split; [exact Hother |].
  exact (launch_failure_reported (failing_env (String.prefix "docker run"))
           plain_platform demo_params fresh_world demo_command launch_error
           Hin Hother).
Defined.

Lemma verification_outcomes_witness :
  let run := deployVSCodeInstance (friendly_env 10000) plain_platform
                                  demo_params fresh_world in
  let evs := events_since fresh_world (snd run) in
  In (EvExec StatusQuery demo_status_command (inr "Up 2 seconds")) evs /\
  exists content instance, fst run = Return (Success content instance).
Proof.
  cbv zeta.
  assert (Hin : In (EvExec StatusQuery demo_status_command (inr "Up 2 seconds"))
                   (events_since fresh_world
                      (snd (deployVSCodeInstance (friendly_env 10000) plain_platform
                                                 demo_params fresh_world))))
    by find_event.
  split; [exact Hin |].
  exact (verification_outcomes (friendly_env 10000) plain_platform demo_params
           fresh_world demo_status_command (inr "Up 2 seconds") Hin).
Defined.

Lemma other_files_untouched_witness :
  let run := deployVSCodeInstance (colliding_env 20000 false) plain_platform
                                  (with_runtime "docker" demo_params) fresh_world in
  let evs := events_since fresh_world (snd run) in
  In (EvUnlink demo_record_path None) evs /\
  exists data cmd error,
    precedes (EvWriteFile demo_record_path data None)
             (EvExec Launch cmd (inl error)) evs /\
    precedes (EvExec Launch cmd (inl error)) (EvUnlink demo_record_path None) evs.
Proof.
  cbv zeta.
  assert (Hin : In (EvUnlink demo_record_path None)
                   (events_since fresh_world
                      (snd (deployVSCodeInstance (colliding_env 20000 false)
                              plain_platform (with_runtime "docker" demo_params)
                              fresh_world)))) by find_event.
  split; [exact Hin |].
  exact (proj2 (other_files_untouched (colliding_env 20000 false) plain_platform
                  (with_runtime "docker" demo_params) fresh_world)
               demo_record_path None Hin).
Defined.

Lemma default_extensions_verbatim_witness :
  Params.extensions demo_params = None /\
  Js.join "," (resolve_extensions plain_platform demo_params)
  = DEFAULT_EXTENSIONS plain_platform.
Proof.
  split; [reflexivity |].
  exact (proj1 (default_extensions_verbatim plain_platform demo_params eq_refl)).
Defined.

Lemma failure_text_follows_message_witness :
  let run := deployVSCodeInstance (crowded_env (Z.eqb 12345) 10000) plain_platform
                                  demo_params fresh_world in
  fst run = Return (Failure conflict_content conflict_error) /\
  exists line,
    conflict_content = [ {| type := "text"; text := line |} ] /\
    line = "Error: " +:+ message conflict_error +:+ ". Consider using port "
           +:+ Js.of_Z 10000 +:+ " instead.".
Proof.
  cbv zeta.
  assert (Hrun : fst (deployVSCodeInstance (crowded_env (Z.eqb 12345) 10000)
                        plain_platform demo_params fresh_world)
                 = Return (Failure conflict_content conflict_error))
    by (vm_compute; reflexivity).
  split; [exact Hrun |].
  exact (failure_text_follows_message (crowded_env (Z.eqb 12345) 10000)
           plain_platform demo_params fresh_world conflict_content conflict_error
           Hrun).
Defined.

Lemma success_text_follows_descriptor_witness :
  fst (deployVSCodeInstance (friendly_env 10000) plain_platform demo_params
         fresh_world)
  = Return (Success demo_content demo_instance) /\
  demo_content =
  [ {| type := "text";
       text := "VSCode instance deployed successfully!" +:+ Json.newline +:+ Json.newline
               +:+ "Runtime: " +:+ Deployed.runtime demo_instance +:+ Json.newline
               +:+ "Name: " +:+ Deployed.name demo_instance +:+ Json.newline
               +:+ "Instance ID: " +:+ Deployed.id demo_instance +:+ Json.newline
               +:+ "URL: " +:+ Deployed.url demo_instance +:+ Json.newline
               +:+ "Authentication: Passwordless" +:+ Json.newline
               +:+ "Status: " +:+ Deployed.status demo_instance +:+ Json.newline
               +:+ "Workspace: " +:+ Deployed.workspace_path demo_instance |} ].
Proof.
  assert (Hrun : fst (deployVSCodeInstance (friendly_env 10000) plain_platform
                        demo_params fresh_world)
                 = Return (Success demo_content demo_instance))
    by (vm_compute; reflexivity).
  split; [exact Hrun |].
  exact (success_text_follows_descriptor (friendly_env 10000) plain_platform
           demo_params fresh_world demo_content demo_instance Hrun).
Defined.
